(** * The machine actuator of cluster-api-provider-aws

    A shallow embedding of [pkg/cloud/aws/actuators/machine/actuator.go].

    The actuator is glue code: every verb talks to collaborators (the
    resource store, the EC2 and ELB services, the token issuer) and decides
    what to do from their answers.  The collaborators are not part of this
    file, so they are taken as a [Backend]: one stateful oracle per
    operation, over an arbitrary type of worlds.  Every call to a
    collaborator is recorded, with its arguments and its answer, in the
    list of events a computation returns; the theorems are statements about
    the returned value and these events, for every backend. *)

From stdpp Require Import base option list strings gmap.
From Stdlib Require Import ZArith.

Local Open Scope Z_scope.
Local Open Scope string_scope.
Local Open Scope list_scope.

(* [simplify_eq] clears hypotheses that a substitution has already removed. *)
#[local] Set Warnings "-clear-no-such-hyp".

(** ** Go's [time] package: a [Duration] is a count of nanoseconds. *)
Module time.
Definition Duration : Type := Z.
Definition Nanosecond : Duration := 1.
Definition Microsecond : Duration := 1000 * Nanosecond.
Definition Millisecond : Duration := 1000 * Microsecond.
Definition Second : Duration := 1000 * Millisecond.
Definition Minute : Duration := 60 * Second.
End time.

(** ** Error values

    [Foreign] is an error made by a collaborator.  [Errorf] is
    [errors.Errorf(format, err)] with a single [%+v] verb: a new root error,
    the text of [err] ends up in the message and the chain is cut.  [Wrapf]
    is [errors.Wrapf(err, format, args...)], which keeps [err] as its cause.
    [UnknownSetLabel] is the error [isNodeJoin] builds from the label value
    and the machine name.  [RequeueAfterError] is the controller's
    retry-later value. *)
Inductive error : Type :=
| Foreign (text : string)
| Errorf (format : string) (err : error)
| UnknownSetLabel (value name : string)
| Wrapf (err : error) (format : string) (args : list string)
| RequeueAfterError (RequeueAfter : time.Duration).

(** [errors.Cause]: follow the causes down to the first error that has none. *)
Fixpoint Cause (err : error) : error :=
  match err with
  | Wrapf cause _ _ => Cause cause
  | _ => err
  end.

(** A Go pair [(value, error)] whose value is only read when the error is
    nil, which is how every caller in this file reads it. *)
Inductive result (A : Type) : Type :=
| Ok (a : A)
| Err (err : error).
Arguments Ok {A} a.
Arguments Err {A} err.

(** ** cluster-api objects *)
Module clusterv1.
Record ObjectMeta : Type := {
  Name : string;
  Namespace : string;
  Labels : gmap string string;
  (* a nil map and an empty map differ when written to *)
  Annotations : option (gmap string string)
}.

Record MachineVersionInfo : Type := {
  Kubelet : string;
  ControlPlane : string
}.

Record MachineSpec : Type := { Versions : MachineVersionInfo }.

Record Machine : Type := {
  ObjectMeta_ : ObjectMeta;
  Spec : MachineSpec
}.

Record MachineList : Type := { Items : list Machine }.

Record Cluster : Type := { ClusterMeta : ObjectMeta }.

Definition set_Annotations (a : option (gmap string string)) (m : Machine) : Machine :=
  {| ObjectMeta_ :=
       {| Name := Name (ObjectMeta_ m);
          Namespace := Namespace (ObjectMeta_ m);
          Labels := Labels (ObjectMeta_ m);
          Annotations := a |};
     Spec := Spec m |}.

(** Indexing a Go map: the zero value when the key is absent. *)
Definition label (key : string) (m : Machine) : string :=
  default "" (Labels (ObjectMeta_ m) !! key).
End clusterv1.

(** ** The provider's own API types *)
Module v1alpha1.
(** [InstanceState] is a string type. *)
Definition InstanceState : Type := string.

(** Modelled from the spec: the declarations of the instance-state
    constants are in the provider's API package; the spec names the
    states pending, running, shutting-down and terminated, which are the
    EC2 state names. *)
Definition InstanceStatePending : InstanceState := "pending".
Definition InstanceStateRunning : InstanceState := "running".
Definition InstanceStateShuttingDown : InstanceState := "shutting-down".
Definition InstanceStateTerminated : InstanceState := "terminated".

Record Instance : Type := {
  ID : string;
  State : InstanceState;
  SecurityGroupIDs : list string
}.

Record AWSMachineProviderStatus : Type := {
  InstanceID : option string;        (* a string pointer *)
  InstanceState_ : option string     (* a string pointer *)
}.

Record AWSMachineProviderSpec : Type := {
  AdditionalSecurityGroups : list string;
  AdditionalTags : gmap string string
}.
End v1alpha1.

(** ** The machine scope, as far as this file touches it

    A field whose Go name is also the name of a type carries a trailing
    underscore, here and above. *)
Module actuators.
Record MachineScopeParams : Type := {
  Machine_ : clusterv1.Machine;
  Cluster_ : clusterv1.Cluster
}.

Record MachineScope : Type := {
  ScopeName : string;      (* what the method Name() answers *)
  MachineConfig : v1alpha1.AWSMachineProviderSpec;
  MachineStatus : v1alpha1.AWSMachineProviderStatus
}.

Definition set_MachineStatus (st : v1alpha1.AWSMachineProviderStatus)
    (s : MachineScope) : MachineScope :=
  {| ScopeName := ScopeName s;
     MachineConfig := MachineConfig s;
     MachineStatus := st |}.
End actuators.

Import clusterv1 v1alpha1 actuators.

(** [aws.StringValue]: the pointee, or the empty string for nil. *)
Definition StringValue (p : option string) : string := default "" p.

(** ** Events: one per call to a collaborator, with its answer *)
Inductive Event : Type :=
| EvNewMachineScope (params : MachineScopeParams) (r : result MachineScope)
| EvClose (scope : MachineScope)
| EvGetIP (cluster : Cluster) (r : result string)
| EvGetKubeConfig (cluster : Cluster) (r : result string)
| EvList (scope : MachineScope) (r : result MachineList)
| EvMachineExists (scope : MachineScope) (r : result bool)
| EvBuildConfig (url kubeConfig : string) (r : result string)
| EvNewForConfig (clientConfig : string) (r : result string)
| EvNewBootstrap (coreClient : string) (ttl : time.Duration) (r : result string)
| EvCreateOrGetMachine (scope : MachineScope) (token kubeConfig : string)
    (r : result (option Instance))
| EvRegisterInstanceWithAPIServerELB (id : string) (r : option error)
| EvInstanceIfExists (id : string) (r : result (option Instance))
| EvTerminateInstance (id : string) (r : option error)
| EvEnsureSecurityGroups (machine : Machine) (id : string)
    (additional existing : list string) (r : result bool)
| EvEnsureTags (machine : Machine) (id : option string)
    (tags : gmap string string) (r : result bool).

(** ** The collaborators

    A collaborator reads its arguments and changes the world; it does not
    write to the machine or to the scope it is handed. *)
Record Backend (W : Type) : Type := {
  (* actuators.NewMachineScope *)
  newMachineScope : MachineScopeParams → W → result MachineScope * W;
  (* the scope's method Close *)
  close : MachineScope → W → W;
  (* the embedded deployer *)
  getIP : Cluster → W → result string * W;
  getKubeConfig : Cluster → W → result string * W;
  (* scope.MachineClient.List *)
  machineList : MachineScope → W → result MachineList * W;
  (* the ec2 service *)
  machineExists : MachineScope → W → result bool * W;
  createOrGetMachine : MachineScope → string → string → W → result (option Instance) * W;
  instanceIfExists : string → W → result (option Instance) * W;
  terminateInstance : string → W → option error * W;
  (* the elb service *)
  registerInstanceWithAPIServerELB : string → W → option error * W;
  (* clientcmd, corev1 and the token issuer *)
  buildConfigFromKubeconfigGetter : string → string → W → result string * W;
  newForConfig : string → W → result string * W;
  newBootstrap : string → time.Duration → W → result string * W;
  (* the actuator's drift correction, in another file of the package *)
  ensureSecurityGroups_ : Machine → string → list string → list string → W → result bool * W;
  ensureTags_ : Machine → option string → gmap string string → W → result bool * W;
  (* awserrors.IsFailedDependency *)
  isFailedDependency : error → bool
}.
Arguments newMachineScope {W} _ _ _.
Arguments close {W} _ _ _.
Arguments getIP {W} _ _ _.
Arguments getKubeConfig {W} _ _ _.
Arguments machineList {W} _ _ _.
Arguments machineExists {W} _ _ _.
Arguments createOrGetMachine {W} _ _ _ _ _.
Arguments instanceIfExists {W} _ _ _.
Arguments terminateInstance {W} _ _ _.
Arguments registerInstanceWithAPIServerELB {W} _ _ _.
Arguments buildConfigFromKubeconfigGetter {W} _ _ _ _.
Arguments newForConfig {W} _ _ _.
Arguments newBootstrap {W} _ _ _ _.
Arguments ensureSecurityGroups_ {W} _ _ _ _ _ _.
Arguments ensureTags_ {W} _ _ _ _ _.
Arguments isFailedDependency {W} _ _.

(** ** The monad of a verb

    A verb runs on a memory: the world of the collaborators, the pointee of
    its [machine] argument and the pointee of its [scope] variable (nil
    until the scope is constructed).  It ends normally or in a panic, and
    answers the events it caused, oldest first. *)
Inductive Outcome (A : Type) : Type :=
| Normal (a : A)
| Panic.
Arguments Normal {A} a.
Arguments Panic {A}.

Record Mem (W : Type) : Type := {
  world : W;
  machine : Machine;
  scope : option MachineScope
}.
Arguments world {W} _.
Arguments machine {W} _.
Arguments scope {W} _.
Arguments Build_Mem {W} _ _ _.

Definition M (W A : Type) : Type := Mem W → Outcome A * Mem W * list Event.

Section Monad.
Context {W : Type}.

Definition ret {A} (a : A) : M W A := λ mem, (Normal a, mem, []).

Definition bind {A B} (m : M W A) (k : A → M W B) : M W B := λ mem,
  match m mem with
  | (Normal a, mem1, evs1) =>
      match k a mem1 with
      | (o, mem2, evs2) => (o, mem2, evs1 ++ evs2)
      end
  | (Panic, mem1, evs1) => (Panic, mem1, evs1)
  end.

Definition panic {A} : M W A := λ mem, (Panic, mem, []).

(** Reading through a pointer: a nil pointer dereference panics. *)
Definition deref {A} (p : option A) : M W A :=
  match p with
  | Some a => ret a
  | None => panic
  end.

(** A call to a collaborator: the world moves, the event is recorded. *)
Definition call {A} (f : W → A * W) (ev : A → Event) : M W A := λ mem,
  match f (world mem) with
  | (a, w) => (Normal a, Build_Mem w (machine mem) (scope mem), [ev a])
  end.

Definition get_machine : M W Machine := λ mem, (Normal (machine mem), mem, []).
Definition set_machine (m : Machine) : M W unit := λ mem,
  (Normal (), Build_Mem (world mem) m (scope mem), []).

(** Reading through the [scope] pointer. *)
Definition get_scope : M W MachineScope := λ mem,
  match scope mem with
  | Some s => (Normal s, mem, [])
  | None => (Panic, mem, [])
  end.
Definition set_scope (s : MachineScope) : M W unit := λ mem,
  (Normal (), Build_Mem (world mem) (machine mem) (Some s), []).
End Monad.

Notation "'let*' x ':=' m 'in' k" := (bind m (λ x, k))
  (at level 10, x binder, m at level 100, k at level 200, only parsing).

(** ** Package machine: the actuator *)
Section Actuator.
Context {W : Type} (a : Backend W).

(** The collaborators' operations as recorded calls. *)
Definition NewMachineScope (params : MachineScopeParams) : M W (result MachineScope) :=
  call (newMachineScope a params) (EvNewMachineScope params).
Definition Close (s : MachineScope) : M W unit :=
  call (λ w, ((), close a s w)) (λ _, EvClose s).
Definition GetIP (cluster : Cluster) : M W (result string) :=
  call (getIP a cluster) (EvGetIP cluster).
Definition GetKubeConfig (cluster : Cluster) : M W (result string) :=
  call (getKubeConfig a cluster) (EvGetKubeConfig cluster).
Definition List_ (s : MachineScope) : M W (result MachineList) :=
  call (machineList a s) (EvList s).
Definition MachineExists (s : MachineScope) : M W (result bool) :=
  call (machineExists a s) (EvMachineExists s).
Definition CreateOrGetMachine (s : MachineScope) (token kubeConfig : string)
    : M W (result (option Instance)) :=
  call (createOrGetMachine a s token kubeConfig) (EvCreateOrGetMachine s token kubeConfig).
Definition InstanceIfExists (id : string) : M W (result (option Instance)) :=
  call (instanceIfExists a id) (EvInstanceIfExists id).
Definition TerminateInstance (id : string) : M W (option error) :=
  call (terminateInstance a id) (EvTerminateInstance id).
Definition RegisterInstanceWithAPIServerELB (id : string) : M W (option error) :=
  call (registerInstanceWithAPIServerELB a id) (EvRegisterInstanceWithAPIServerELB id).
Definition BuildConfigFromKubeconfigGetter (url kubeConfig : string) : M W (result string) :=
  call (buildConfigFromKubeconfigGetter a url kubeConfig) (EvBuildConfig url kubeConfig).
Definition NewForConfig (clientConfig : string) : M W (result string) :=
  call (newForConfig a clientConfig) (EvNewForConfig clientConfig).
Definition NewBootstrap (coreClient : string) (ttl : time.Duration) : M W (result string) :=
  call (newBootstrap a coreClient ttl) (EvNewBootstrap coreClient ttl).
Definition ensureSecurityGroups (m : Machine) (id : string)
    (additional existing : list string) : M W (result bool) :=
  call (ensureSecurityGroups_ a m id additional existing)
       (EvEnsureSecurityGroups m id additional existing).
Definition ensureTags (m : Machine) (id : option string)
    (tags : gmap string string) : M W (result bool) :=
  call (ensureTags_ a m id tags) (EvEnsureTags m id tags).

(** [defer scope.Close()]: what follows the statement is [body]; when the
    function is left, by a return or by a panic, [Close] runs on what the
    [scope] pointer points to at that moment. *)
Definition defer_Close {A} (body : M W A) : M W A := λ mem,
  match body mem with
  | (o, mem1, evs1) =>
      match (let* s := get_scope in Close s) mem1 with
      | (Normal _, mem2, evs2) => (o, mem2, evs1 ++ evs2)
      | (Panic, mem2, evs2) => (Panic, mem2, evs1 ++ evs2)
      end
  end.

(** The loop of [getControlPlaneMachines], [cpm] being the slice built so
    far. *)
Fixpoint getControlPlaneMachines_loop (items cpm : list Machine) : list Machine :=
  match items with
  | [] => cpm
  | m :: items' =>
      if decide (ControlPlane (Versions (Spec m)) ≠ "")
      then getControlPlaneMachines_loop items' (cpm ++ [m])
      else getControlPlaneMachines_loop items' cpm
  end.

Definition getControlPlaneMachines (machineList : MachineList) : list Machine :=
  getControlPlaneMachines_loop (Items machineList) [].

Definition machinesEqual (m1 m2 : Machine) : bool :=
  bool_decide (Name (ObjectMeta_ m1) = Name (ObjectMeta_ m2))
  && bool_decide (Namespace (ObjectMeta_ m1) = Namespace (ObjectMeta_ m2)).

(** The loop of [isNodeJoin] over the control plane machines that are
    left.  It leaves the function with an error, or leaves the loop (by
    [break] or at the end of the slice) with [contolPlaneExists], which
    the function then returns. *)
Fixpoint isNodeJoin_loop (controlPlaneMachines : list Machine) (cluster : Cluster)
    (contolPlaneExists : bool) : M W (bool * option error) :=
  match controlPlaneMachines with
  | [] => ret (contolPlaneExists, None)
  | cm :: rest =>
      let* r := NewMachineScope {| Machine_ := cm; Cluster_ := cluster |} in
      match r with
      | Err err =>
          ret (false, Some (Wrapf err "failed to create machine scope for machine %q"
                              [Name (ObjectMeta_ cm)]))
      | Ok m =>
          let* r := MachineExists m in
          match r with
          | Err err =>
              ret (false, Some (Wrapf err "failed to verify existence of machine %q"
                                  [ScopeName m]))
          | Ok contolPlaneExists =>
              if contolPlaneExists
              then ret (contolPlaneExists, None)
              else isNodeJoin_loop rest cluster contolPlaneExists
          end
      end
  end.

Definition isNodeJoin (controlPlaneMachines : list Machine) (newMachine : Machine)
    (cluster : Cluster) : M W (bool * option error) :=
  let set := label "set" newMachine in
  if decide (set = "node") then ret (true, None)
  else if decide (set = "controlplane") then
    isNodeJoin_loop controlPlaneMachines cluster false
  else
    ret (false, Some (UnknownSetLabel set (Name (ObjectMeta_ newMachine)))).

Definition getNodeJoinToken (cluster : Cluster) (controlPlaneURL : string)
    : M W (string * option error) :=
  let* r := GetKubeConfig cluster in
  match r with
  | Err err =>
      ret ("", Some (Wrapf err "failed to retrieve kubeconfig for cluster %q."
                      [Name (ClusterMeta cluster)]))
  | Ok kubeConfig =>
      let* r := BuildConfigFromKubeconfigGetter controlPlaneURL kubeConfig in
      match r with
      | Err err =>
          ret ("", Some (Wrapf err "failed to get client config for cluster at %q"
                          [controlPlaneURL]))
      | Ok clientConfig =>
          let* r := NewForConfig clientConfig in
          match r with
          | Err err => ret ("", Some (Wrapf err "failed to initialize new corev1 client" []))
          | Ok coreClient =>
              let* r := NewBootstrap coreClient (10 * time.Minute) in
              match r with
              | Err err => ret ("", Some (Wrapf err "failed to create new bootstrap token" []))
              | Ok bootstrapToken => ret (bootstrapToken, None)
              end
          end
      end
  end.

Definition reconcileLBAttachment (m : Machine) (i : Instance) : M W (option error) :=
  if decide (label "set" m = "controlplane") then
    let* r := RegisterInstanceWithAPIServerELB (ID i) in
    match r with
    | Some err =>
        ret (Some (Wrapf err
               "could not register control plane instance %q with load balancer" [ID i]))
    | None => ret None
    end
  else ret None.

(** Create creates a machine.  The [machine] argument is the pointee in
    the memory. *)
Definition Create (cluster : Cluster) : M W (option error) :=
  let* machine := get_machine in
  let* r := NewMachineScope {| Machine_ := machine; Cluster_ := cluster |} in
  match r with
  | Err err => ret (Some (Errorf "failed to create scope: %+v" err))
  | Ok s =>
  let* _ := set_scope s in
  defer_Close (
    let* r := GetIP cluster in
    match r with
    | Err err =>
        ret (Some (Errorf
               "failed to retrieve controlplane url during machine creation: %+v" err))
    | Ok controlPlaneURL =>
    let* scope := get_scope in
    let* r := List_ scope in
    match r with
    | Err err =>
        ret (Some (Wrapf err "failed to retrieve machines in cluster %q"
                     [Name (ClusterMeta cluster)]))
    | Ok clusterMachines =>
    let controlPlaneMachines := getControlPlaneMachines clusterMachines in
    let* machine := get_machine in
    let* '(isNodeJoin, err) := isNodeJoin controlPlaneMachines machine cluster in
    match err with
    | Some err =>
        ret (Some (Wrapf err "failed to determine whether machine %q should join cluster %q"
                     [Name (ObjectMeta_ machine); Name (ClusterMeta cluster)]))
    | None =>
    let* '(bootstrapToken, err) :=
      (if isNodeJoin : bool then getNodeJoinToken cluster controlPlaneURL
       else ret ("", None)) in
    match err with
    | Some err =>
        ret (Some (Wrapf err "failed to obtain token for node %q to join cluster %q"
                     [Name (ObjectMeta_ machine); Name (ClusterMeta cluster)]))
    | None =>
    let* r := GetKubeConfig cluster in
    match r with
    | Err err =>
        ret (Some (Wrapf err "failed to retrieve kubeconfig while creating machine %q"
                     [Name (ObjectMeta_ machine)]))
    | Ok kubeConfig =>
    let* scope := get_scope in
    let* r := CreateOrGetMachine scope bootstrapToken kubeConfig in
    match r with
    | Err err =>
        if isFailedDependency a (Cause err)
        then ret (Some (RequeueAfterError time.Minute))
        else ret (Some (Errorf "failed to create or get machine: %+v" err))
    | Ok i =>
    let* i := deref i in
    let* scope := get_scope in
    let* _ := set_scope (set_MachineStatus
                {| InstanceID := Some (ID i);
                   InstanceState_ := InstanceState_ (MachineStatus scope) |} scope) in
    let* scope := get_scope in
    let* _ := set_scope (set_MachineStatus
                {| InstanceID := InstanceID (MachineStatus scope);
                   InstanceState_ := Some (State i) |} scope) in
    let* machine := get_machine in
    let* _ := (if Annotations (ObjectMeta_ machine) is None
               then set_machine (set_Annotations (Some ∅) machine)
               else ret ()) in
    let* machine := get_machine in
    let* annotations := deref (Annotations (ObjectMeta_ machine)) in
    let* _ := set_machine (set_Annotations
                (Some (<["cluster-api-provider-aws" := "true"]> annotations)) machine) in
    let* machine := get_machine in
    let* err := reconcileLBAttachment machine i in
    match err with
    | Some err => ret (Some (Errorf "failed to reconcile LB attachment: %+v" err))
    | None => ret None
    end end end end end end end)
  end.

(** Delete deletes a machine. *)
Definition Delete (cluster : Cluster) : M W (option error) :=
  let* machine := get_machine in
  let* r := NewMachineScope {| Machine_ := machine; Cluster_ := cluster |} in
  match r with
  | Err err => ret (Some (Errorf "failed to create scope: %+v" err))
  | Ok s =>
  let* _ := set_scope s in
  defer_Close (
    let* scope := get_scope in
    let* id := deref (InstanceID (MachineStatus scope)) in
    let* r := InstanceIfExists id in
    match r with
    | Err err => ret (Some (Errorf "failed to get instance: %+v" err))
    | Ok None => ret None
    | Ok (Some instance) =>
        if decide (State instance = InstanceStateShuttingDown
                   ∨ State instance = InstanceStateTerminated)
        then ret None
        else
          let* scope := get_scope in
          let* err := TerminateInstance (StringValue (InstanceID (MachineStatus scope))) in
          match err with
          | Some err => ret (Some (Errorf "failed to terminate instance: %+v" err))
          | None => ret None
          end
    end)
  end.

(** Update updates a machine. *)
Definition Update (cluster : Cluster) : M W (option error) :=
  let* machine := get_machine in
  let* r := NewMachineScope {| Machine_ := machine; Cluster_ := cluster |} in
  match r with
  | Err err => ret (Some (Errorf "failed to create scope: %+v" err))
  | Ok s =>
  let* _ := set_scope s in
  defer_Close (
    let* scope := get_scope in
    let* id := deref (InstanceID (MachineStatus scope)) in
    let* r := InstanceIfExists id in
    match r with
    | Err err => ret (Some (Errorf "failed to get instance: %+v" err))
    | Ok instanceDescription =>
    (* the arguments of ensureSecurityGroups, left to right *)
    let* machine := get_machine in
    let* scope := get_scope in
    let* id := deref (InstanceID (MachineStatus scope)) in
    let additional := AdditionalSecurityGroups (MachineConfig scope) in
    let* description := deref instanceDescription in
    let* r := ensureSecurityGroups machine id additional (SecurityGroupIDs description) in
    match r with
    | Err err => ret (Some (Errorf "failed to apply security groups: %+v" err))
    | Ok _ =>
    let* machine := get_machine in
    let* scope := get_scope in
    let* r := ensureTags machine (InstanceID (MachineStatus scope))
                (AdditionalTags (MachineConfig scope)) in
    match r with
    | Err err => ret (Some (Errorf "failed to ensure tags: %+v" err))
    | Ok _ => ret None
    end end end)
  end.

(** Exists tests for the existence of a machine. *)
Definition Exists (cluster : Cluster) : M W (bool * option error) :=
  let* machine := get_machine in
  let* r := NewMachineScope {| Machine_ := machine; Cluster_ := cluster |} in
  match r with
  | Err err => ret (false, Some (Errorf "failed to create scope: %+v" err))
  | Ok s =>
  let* _ := set_scope s in
  defer_Close (
    let* scope := get_scope in
    if InstanceID (MachineStatus scope) is None then ret (false, None) else
    let* id := deref (InstanceID (MachineStatus scope)) in
    let* r := InstanceIfExists id in
    match r with
    | Err err => ret (false, Some (Errorf "failed to retrieve instance: %+v" err))
    | Ok None => ret (false, None)
    | Ok (Some instance) =>
        if decide (State instance = InstanceStateRunning
                   ∨ State instance = InstanceStatePending)
        then
          let* machine := get_machine in
          let* err := reconcileLBAttachment machine instance in
          match err with
          | Some err => ret (true, Some err)
          | None => ret (true, None)
          end
        else ret (false, None)
    end)
  end.

(** A verb called on a machine in a world, with no scope yet. *)
Definition run {A} (verb : M W A) (machine : Machine) (w : W)
    : Outcome A * Mem W * list Event :=
  verb (Build_Mem w machine None).
End Actuator.

(** ** Reading the events *)

(** The instance IDs of the terminate requests among the events. *)
Definition terminations (evs : list Event) : list string :=
  omap (λ ev, match ev with EvTerminateInstance id _ => Some id | _ => None end) evs.

(** The instance IDs of the lookups among the events. *)
Definition lookups (evs : list Event) : list string :=
  omap (λ ev, match ev with EvInstanceIfExists id _ => Some id | _ => None end) evs.

(** The instance IDs of the load-balancer registrations among the events. *)
Definition registrations (evs : list Event) : list string :=
  omap (λ ev, match ev with
              | EvRegisterInstanceWithAPIServerELB id _ => Some id
              | _ => None
              end) evs.

(** The scopes handed to [Close] among the events. *)
Definition closes (evs : list Event) : list MachineScope :=
  omap (λ ev, match ev with EvClose s => Some s | _ => None end) evs.

(** ** A small cloud to run the verbs on

    One concrete backend: EC2 is a table of instances, the resource store
    keeps the machines and the provider status committed for each machine
    name; the network, the load balancer and the token issuer are up or
    down. *)
Module cloud.
Record Cloud : Type := {
  instances : gmap string Instance;
  store : gmap string AWSMachineProviderStatus;
  machines : list Machine;
  endpoint : option string;
  networkReady : bool;
  elbHealthy : bool;
  issuerHealthy : bool
}.

Definition set_instances (f : gmap string Instance → gmap string Instance)
    (w : Cloud) : Cloud :=
  {| instances := f (instances w); store := store w; machines := machines w;
     endpoint := endpoint w; networkReady := networkReady w;
     elbHealthy := elbHealthy w; issuerHealthy := issuerHealthy w |}.

Definition set_store
    (f : gmap string AWSMachineProviderStatus → gmap string AWSMachineProviderStatus)
    (w : Cloud) : Cloud :=
  {| instances := instances w; store := f (store w); machines := machines w;
     endpoint := endpoint w; networkReady := networkReady w;
     elbHealthy := elbHealthy w; issuerHealthy := issuerHealthy w |}.

Definition usable (i : Instance) : bool :=
  bool_decide (State i = InstanceStateRunning ∨ State i = InstanceStatePending).

Definition new_scope (params : MachineScopeParams) (w : Cloud) : result MachineScope * Cloud :=
  let name := Name (ObjectMeta_ (Machine_ params)) in
  (Ok {| ScopeName := name;
         MachineConfig := {| AdditionalSecurityGroups := []; AdditionalTags := ∅ |};
         MachineStatus := default {| InstanceID := None; InstanceState_ := None |}
                                  (store w !! name) |}, w).

Definition commit (s : MachineScope) (w : Cloud) : Cloud :=
  set_store <[ScopeName s := MachineStatus s]> w.

Definition exists_ (s : MachineScope) (w : Cloud) : result bool * Cloud :=
  match InstanceID (MachineStatus s) with
  | Some id => (Ok (from_option usable false (instances w !! id)), w)
  | None => (Ok false, w)
  end.

Definition create_or_get (s : MachineScope) (token kubeConfig : string) (w : Cloud)
    : result (option Instance) * Cloud :=
  if networkReady w then
    let id := "i-" +:+ ScopeName s in
    match instances w !! id with
    | Some i => (Ok (Some i), w)
    | None =>
        let i := {| ID := id; State := InstanceStatePending; SecurityGroupIDs := [] |} in
        (Ok (Some i), set_instances <[id := i]> w)
    end
  else (Err (Foreign "FailedDependency"), w).

Definition terminate (id : string) (w : Cloud) : option error * Cloud :=
  (None,
   set_instances (alter (λ i, {| ID := ID i; State := InstanceStateShuttingDown;
                                 SecurityGroupIDs := SecurityGroupIDs i |}) id) w).

Definition failed_dependency (err : error) : bool :=
  match err with
  | Foreign text => bool_decide (text = "FailedDependency")
  | _ => false
  end.

Definition backend : Backend Cloud := {|
  newMachineScope := new_scope;
  close := commit;
  getIP := λ _ w, (from_option Ok (Err (Foreign "no control plane endpoint")) (endpoint w), w);
  getKubeConfig := λ _ w, (Ok "kubeconfig", w);
  machineList := λ _ w, (Ok {| Items := machines w |}, w);
  machineExists := exists_;
  createOrGetMachine := create_or_get;
  instanceIfExists := λ id w, (Ok (instances w !! id), w);
  terminateInstance := terminate;
  registerInstanceWithAPIServerELB := λ _ w,
    (if elbHealthy w then None else Some (Foreign "load balancer unavailable"), w);
  buildConfigFromKubeconfigGetter := λ url _ w, (Ok url, w);
  newForConfig := λ clientConfig w, (Ok clientConfig, w);
  newBootstrap := λ _ _ w,
    (if issuerHealthy w then Ok "abcdef.0123456789abcdef"
     else Err (Foreign "token issuer unavailable"), w);
  ensureSecurityGroups_ := λ _ _ _ _ w, (Ok false, w);
  ensureTags_ := λ _ _ _ w, (Ok false, w);
  isFailedDependency := failed_dependency
|}.

(** Sample objects. *)
Definition a_machine (name set controlPlane : string) : Machine :=
  {| ObjectMeta_ := {| Name := name; Namespace := "default";
                       Labels := {["set" := set]}; Annotations := None |};
     Spec := {| Versions := {| Kubelet := "1.13.0"; ControlPlane := controlPlane |} |} |}.

Definition a_cluster : Cluster :=
  {| ClusterMeta := {| Name := "test"; Namespace := "default";
                       Labels := ∅; Annotations := None |} |}.

Definition an_instance (id : string) (state : InstanceState) : Instance :=
  {| ID := id; State := state; SecurityGroupIDs := ["sg-1"] |}.

Definition provisioned (id : string) : AWSMachineProviderStatus :=
  {| InstanceID := Some id; InstanceState_ := Some InstanceStateRunning |}.

(** A cloud in which the network, the load balancer and the issuer are up. *)
Definition healthy (instances : gmap string Instance)
    (store : gmap string AWSMachineProviderStatus) (machines : list Machine) : Cloud :=
  {| instances := instances; store := store; machines := machines;
     endpoint := Some "https://10.0.0.1:6443"; networkReady := true;
     elbHealthy := true; issuerHealthy := true |}.
End cloud.

(** The create-or-get calls among the events, with the token passed. *)
Definition creations (evs : list Event) : list string :=
  omap (λ ev, match ev with EvCreateOrGetMachine _ token _ _ => Some token | _ => None end) evs.

(** The machines for which a scope was constructed among the events. *)
Definition constructions (evs : list Event) : list Machine :=
  omap (λ ev, match ev with
              | EvNewMachineScope params _ => Some (Machine_ params)
              | _ => None
              end) evs.

(** The token requests among the events, with the lifetime asked for. *)
Definition token_requests (evs : list Event) : list time.Duration :=
  omap (λ ev, match ev with EvNewBootstrap _ ttl _ => Some ttl | _ => None end) evs.

(** An event that reports a failed scope construction or existence check. *)
Definition failed_check (ev : Event) : Prop :=
  match ev with
  | EvNewMachineScope _ (Err _) | EvMachineExists _ (Err _) => True
  | _ => False
  end.

(** An event that reports a failure on the way to the bootstrap token. *)
Definition token_failure (ev : Event) : Prop :=
  match ev with
  | EvGetKubeConfig _ (Err _) | EvBuildConfig _ _ (Err _)
  | EvNewForConfig _ (Err _) | EvNewBootstrap _ _ (Err _) => True
  | _ => False
  end.

(** The machine was classified as joining: its label [set] is [node], or it
    is [controlplane] and an existence check answered true. *)
Definition joins (machine : Machine) (evs : list Event) : Prop :=
  label "set" machine = "node" ∨
  (label "set" machine = "controlplane" ∧ ∃ m, EvMachineExists m (Ok true) ∈ evs).

(** ** The runs of the loop of [isNodeJoin]

    [loop_trace cluster machines b evs r]: started on [machines] with
    [contolPlaneExists = b], the loop causes the events [evs] and makes the
    function return [r]. *)
Inductive loop_trace (cluster : Cluster)
    : list Machine → bool → list Event → bool * option error → Prop :=
| loop_end b :
    loop_trace cluster [] b [] (b, None)
| loop_scope_failed cm rest b err :
    loop_trace cluster (cm :: rest) b
      [EvNewMachineScope {| Machine_ := cm; Cluster_ := cluster |} (Err err)]
      (false, Some (Wrapf err "failed to create machine scope for machine %q"
                      [Name (ObjectMeta_ cm)]))
| loop_exists_failed cm rest b m err :
    loop_trace cluster (cm :: rest) b
      [EvNewMachineScope {| Machine_ := cm; Cluster_ := cluster |} (Ok m);
       EvMachineExists m (Err err)]
      (false, Some (Wrapf err "failed to verify existence of machine %q" [ScopeName m]))
| loop_found cm rest b m :
    loop_trace cluster (cm :: rest) b
      [EvNewMachineScope {| Machine_ := cm; Cluster_ := cluster |} (Ok m);
       EvMachineExists m (Ok true)]
      (true, None)
| loop_next cm rest b m evs r :
    loop_trace cluster rest false evs r →
    loop_trace cluster (cm :: rest) b
      (EvNewMachineScope {| Machine_ := cm; Cluster_ := cluster |} (Ok m)
       :: EvMachineExists m (Ok false) :: evs)
      r.

(** An event that reports a call that answered an error. *)
Definition failed_call (ev : Event) : Prop :=
  match ev with
  | EvNewMachineScope _ (Err _) | EvGetIP _ (Err _) | EvGetKubeConfig _ (Err _)
  | EvList _ (Err _) | EvMachineExists _ (Err _) | EvBuildConfig _ _ (Err _)
  | EvNewForConfig _ (Err _) | EvNewBootstrap _ _ (Err _)
  | EvCreateOrGetMachine _ _ _ (Err _) | EvRegisterInstanceWithAPIServerELB _ (Some _)
  | EvInstanceIfExists _ (Err _) | EvTerminateInstance _ (Some _)
  | EvEnsureSecurityGroups _ _ _ _ (Err _) | EvEnsureTags _ _ _ (Err _) => True
  | _ => False
  end.

(** ** The small cloud with faults

    The cloud of [cloud.backend], in which the construction of a scope or
    the lookup of an instance may fail, and in which create-or-get may
    answer neither an instance nor an error. *)
Definition faulty_cloud (scopeError lookupError : option error) (createsNothing : bool)
    : Backend cloud.Cloud := {|
  newMachineScope := λ params w,
    match scopeError with
    | Some err => (Err err, w)
    | None => cloud.new_scope params w
    end;
  close := close cloud.backend;
  getIP := getIP cloud.backend;
  getKubeConfig := getKubeConfig cloud.backend;
  machineList := machineList cloud.backend;
  machineExists := machineExists cloud.backend;
  createOrGetMachine := λ s token kubeConfig w,
    if createsNothing then (Ok None, w) else cloud.create_or_get s token kubeConfig w;
  instanceIfExists := λ id w,
    match lookupError with
    | Some err => (Err err, w)
    | None => instanceIfExists cloud.backend id w
    end;
  terminateInstance := terminateInstance cloud.backend;
  registerInstanceWithAPIServerELB := registerInstanceWithAPIServerELB cloud.backend;
  buildConfigFromKubeconfigGetter := buildConfigFromKubeconfigGetter cloud.backend;
  newForConfig := newForConfig cloud.backend;
  newBootstrap := newBootstrap cloud.backend;
  ensureSecurityGroups_ := ensureSecurityGroups_ cloud.backend;
  ensureTags_ := ensureTags_ cloud.backend;
  isFailedDependency := isFailedDependency cloud.backend
|}.

(** The error a call answered, if it answered one. *)
Definition error_of (ev : Event) : option error :=
  match ev with
  | EvNewMachineScope _ (Err err) | EvGetIP _ (Err err) | EvGetKubeConfig _ (Err err)
  | EvList _ (Err err) | EvMachineExists _ (Err err) | EvBuildConfig _ _ (Err err)
  | EvNewForConfig _ (Err err) | EvNewBootstrap _ _ (Err err)
  | EvCreateOrGetMachine _ _ _ (Err err) | EvRegisterInstanceWithAPIServerELB _ (Some err)
  | EvInstanceIfExists _ (Err err) | EvTerminateInstance _ (Some err)
  | EvEnsureSecurityGroups _ _ _ _ (Err err) | EvEnsureTags _ _ _ (Err err) => Some err
  | _ => None
  end.

(** The search over the control plane machines as the claims word it, when
    the scope of a machine is [scope_of] and existence is answered by
    [exists_]: a scope construction and an existence check for each machine
    in turn, up to and including the first machine that exists. *)
Fixpoint existence_search (scope_of : Machine → MachineScope)
    (exists_ : MachineScope → bool) (cluster : Cluster) (machines : list Machine)
    : list Event :=
  match machines with
  | [] => []
  | cm :: rest =>
      EvNewMachineScope {| Machine_ := cm; Cluster_ := cluster |} (Ok (scope_of cm))
      :: EvMachineExists (scope_of cm) (Ok (exists_ (scope_of cm)))
      :: (if exists_ (scope_of cm) then []
          else existence_search scope_of exists_ cluster rest)
  end.

(** ** Proof automation: running a verb symbolically *)

Ltac unfold_verb :=
  unfold run, defer_Close, reconcileLBAttachment, getNodeJoinToken,
    NewMachineScope, Close, GetIP, GetKubeConfig, List_, MachineExists,
    CreateOrGetMachine, InstanceIfExists, TerminateInstance,
    RegisterInstanceWithAPIServerELB, BuildConfigFromKubeconfigGetter,
    NewForConfig, NewBootstrap, ensureSecurityGroups, ensureTags,
    bind, ret, panic, deref, call, get_machine, set_machine, get_scope, set_scope in *.

(** Case analysis on the innermost scrutinee of a match. *)
Ltac destruct_scrutinee x :=
  lazymatch x with
  | context [match ?y with _ => _ end] => destruct_scrutinee y
  | _ => destruct x eqn:?
  end.

Ltac step :=
  match goal with
  | H : context [match ?x with _ => _ end] |- _ => destruct_scrutinee x
  | |- context [match ?x with _ => _ end] => destruct_scrutinee x
  end; simpl in *; simplify_eq.

Ltac run_verb := unfold_verb; simpl in *; simplify_eq; repeat step.

(** Closing a leaf: membership in an explicit list of events. *)
Ltac rewrite_status :=
  repeat match goal with
  | H : InstanceID _ = _ |- _ => progress (rewrite H in * )
  end.

(** Membership hypotheses in explicit lists become equations. *)
Ltac inv_events :=
  unfold terminations, lookups, registrations, closes, StringValue in *; simpl in *;
  repeat match goal with
  | H : _ ∈ _ :: _ |- _ => apply elem_of_cons in H; destruct H as [H | H]; simplify_eq
  | H : _ ∈ [] |- _ => by apply elem_of_nil in H
  end;
  rewrite_status; simpl in *; simplify_eq.

(** Membership goals in explicit lists, possibly with unknowns in the event. *)
Ltac in_events := eauto 12 using list_elem_of_here, list_elem_of_further.

Ltac close_leaf := inv_events; try done; try (set_unfold; naive_solver).

(** The three components of what a run answers. *)
Lemma run_eta {A B C} (r : A * B * C) : r = (r.1.1, r.1.2, r.2).
Proof. by destruct r as [[? ?] ?]. Qed.

(** ** Delete *)

(** C5.  Delete looks up the instance ID of the status, whatever state the
    status remembers, and decides on the live state the lookup answers.  If
    that state is shutting-down or terminated, Delete returns nil and its
    only calls are the lookup and the closing of the scope: no terminate
    request.  In every other state it sends exactly one terminate request,
    for that instance ID, and returns nil exactly when the request
    succeeded; the instance is looked up once, before the request, and
    never again.  The first part states this from the answers of the
    collaborators, the second part from the events of any run. *)
Theorem Delete_terminates_unless_going {W} (a : Backend W) cluster machine w :
  (∀ s w1 id instance w2,
     newMachineScope a {| Machine_ := machine; Cluster_ := cluster |} w = (Ok s, w1) →
     InstanceID (MachineStatus s) = Some id →
     instanceIfExists a id w1 = (Ok (Some instance), w2) →
     let constructed :=
       EvNewMachineScope {| Machine_ := machine; Cluster_ := cluster |} (Ok s) in
     let found := EvInstanceIfExists id (Ok (Some instance)) in
     (State instance = InstanceStateShuttingDown ∨
      State instance = InstanceStateTerminated →
        run (Delete a cluster) machine w
          = (Normal None, Build_Mem (close a s w2) machine (Some s),
             [constructed; found; EvClose s])) ∧
     (¬ (State instance = InstanceStateShuttingDown ∨
         State instance = InstanceStateTerminated) →
        ∀ r w3, terminateInstance a id w2 = (r, w3) →
          run (Delete a cluster) machine w
            = (Normal match r with
                      | Some err => Some (Errorf "failed to terminate instance: %+v" err)
                      | None => None
                      end,
               Build_Mem (close a s w3) machine (Some s),
               [constructed; found; EvTerminateInstance id r; EvClose s]))) ∧
  (∀ out mem evs id instance,
     run (Delete a cluster) machine w = (out, mem, evs) →
     EvInstanceIfExists id (Ok (Some instance)) ∈ evs →
     (State instance = InstanceStateShuttingDown ∨
      State instance = InstanceStateTerminated →
        out = Normal None ∧ terminations evs = []) ∧
     (¬ (State instance = InstanceStateShuttingDown ∨
         State instance = InstanceStateTerminated) →
        ∃ r, terminations evs = [id] ∧ lookups evs = [id] ∧
             EvTerminateInstance id r ∈ evs ∧
             (r = None → out = Normal None) ∧
             (∀ err, r = Some err →
                out = Normal (Some (Errorf "failed to terminate instance: %+v" err))))).
Proof.
  split.
  - intros s w1 id instance w2 Hscope Hid Hlookup constructed found.
    subst constructed found.
    unfold Delete; unfold_verb; simpl.
    rewrite Hscope; simpl. rewrite Hid; simpl. rewrite Hlookup; simpl.
    split; [intros Hgoing | intros Hlive r w3 Hterm].
    + by rewrite decide_True.
    + rewrite decide_False by done. simpl. rewrite Hid; simpl. rewrite Hterm.
      by destruct r.
  - unfold Delete. intros out mem evs id instance Hrun Hin. run_verb.
    all: inv_events.
    all: split; intros Hst; try tauto; try done.
    all: eexists; split_and!; [done | done | in_events | naive_solver..].
Qed.

(** The status remembers a terminated instance, but the instance is
    running: it is looked up and terminated by one request. *)
Lemma Delete_terminates_unless_going_witness :
  let m := cloud.a_machine "m1" "node" "" in
  let i := cloud.an_instance "i-m1" InstanceStateRunning in
  let stale := {| InstanceID := Some "i-m1";
                  InstanceState_ := Some InstanceStateTerminated |} in
  let w := cloud.healthy {["i-m1" := i]} {["m1" := stale]} [m] in
  let s := {| ScopeName := "m1";
              MachineConfig := {| AdditionalSecurityGroups := []; AdditionalTags := ∅ |};
              MachineStatus := stale |} in
  let r := run (Delete cloud.backend cloud.a_cluster) m w in
  newMachineScope cloud.backend {| Machine_ := m; Cluster_ := cloud.a_cluster |} w
    = (Ok s, w) ∧
  instanceIfExists cloud.backend "i-m1" w = (Ok (Some i), w) ∧
  ¬ (State i = InstanceStateShuttingDown ∨ State i = InstanceStateTerminated) ∧
  r.1.1 = Normal None ∧
  r.2 = [EvNewMachineScope {| Machine_ := m; Cluster_ := cloud.a_cluster |} (Ok s);
         EvInstanceIfExists "i-m1" (Ok (Some i));
         EvTerminateInstance "i-m1" None; EvClose s].
Proof.
  intros m i stale w s r.
  assert (Hscope : newMachineScope cloud.backend
                     {| Machine_ := m; Cluster_ := cloud.a_cluster |} w = (Ok s, w))
    by reflexivity.
  assert (Hlookup : instanceIfExists cloud.backend "i-m1" w = (Ok (Some i), w))
    by reflexivity.
  assert (Hst : ¬ (State i = InstanceStateShuttingDown ∨ State i = InstanceStateTerminated)).
  { intros [H | H]; discriminate H. }
  split_and!; [exact Hscope | exact Hlookup | exact Hst | |].
  all: destruct (Delete_terminates_unless_going cloud.backend cloud.a_cluster m w)
         as [Hanswers _].
  all: destruct (Hanswers s w "i-m1" i w Hscope eq_refl Hlookup) as [_ Hlive].
  all: pose proof (Hlive Hst None _ eq_refl) as Hrun.
  all: unfold r; rewrite Hrun; reflexivity.
Defined.

(** When the lookup finds no instance, Delete returns nil and sends no
    terminate request. *)
Lemma Delete_absent_instance_is_noop {W} (a : Backend W) cluster machine w
    out mem evs id :
  run (Delete a cluster) machine w = (out, mem, evs) →
  EvInstanceIfExists id (Ok None) ∈ evs →
  out = Normal None ∧ terminations evs = [].
Proof.
  unfold Delete. intros Hrun Hin. run_verb.
  all: by inv_events.
Qed.

(** When the status of the scope has no instance ID, Delete panics on the
    dereference that builds the argument of the lookup: no lookup is made,
    the deferred Close runs, and the panic leaves the verb. *)
Lemma Delete_nil_instance_id_panics {W} (a : Backend W) cluster machine w
    out mem evs s :
  run (Delete a cluster) machine w = (out, mem, evs) →
  EvNewMachineScope {| Machine_ := machine; Cluster_ := cluster |} (Ok s) ∈ evs →
  InstanceID (MachineStatus s) = None →
  out = Panic ∧
  evs = [EvNewMachineScope {| Machine_ := machine; Cluster_ := cluster |} (Ok s); EvClose s].
Proof.
  unfold Delete. intros Hrun Hin Hid. run_verb.
  all: inv_events; try done; congruence.
Qed.

(** C1.  Delete on a machine that was never provisioned: the store has no
    provider status for it, so the scope carries no instance ID.  Delete
    does not return nil: it ends in a nil pointer dereference, after the
    scope was constructed and closed, without any lookup. *)
Theorem Delete_never_provisioned_panics :
  let m := cloud.a_machine "m1" "node" "" in
  let w := cloud.healthy ∅ ∅ [m] in
  let r := run (Delete cloud.backend cloud.a_cluster) m w in
  r.1.1 = Panic ∧ r.1.1 ≠ Normal None ∧ lookups r.2 = [] ∧ terminations r.2 = [] ∧
  ∃ s, InstanceID (MachineStatus s) = None ∧
       r.2 = [EvNewMachineScope {| Machine_ := m; Cluster_ := cloud.a_cluster |} (Ok s);
              EvClose s].
Proof.
  intros m w r. split_and!; try reflexivity; [discriminate |].
  eexists. split; [| reflexivity]. reflexivity.
Qed.

(** ** Exists *)

(** C2.  The state mapping of Exists, for a scope that was constructed.
    Without an instance ID in the status it returns (false, nil) and calls
    nothing but the construction and the closing of the scope.  With an
    instance ID it looks that ID up, whatever state the status remembers:
    when the lookup finds no instance it returns (false, nil); when the
    found instance is running or pending it returns true; in any other
    state it returns (false, nil).  The first part states this from the
    answers of the collaborators, the second part from the events of any
    run. *)
Theorem Exists_state_mapping {W} (a : Backend W) cluster machine w :
  (∀ s w1,
     newMachineScope a {| Machine_ := machine; Cluster_ := cluster |} w = (Ok s, w1) →
     let constructed :=
       EvNewMachineScope {| Machine_ := machine; Cluster_ := cluster |} (Ok s) in
     (InstanceID (MachineStatus s) = None →
        run (Exists a cluster) machine w
          = (Normal (false, None), Build_Mem (close a s w1) machine (Some s),
             [constructed; EvClose s])) ∧
     (∀ id r w2,
        InstanceID (MachineStatus s) = Some id →
        instanceIfExists a id w1 = (r, w2) →
        match r with
        | Err err =>
            run (Exists a cluster) machine w
              = (Normal (false, Some (Errorf "failed to retrieve instance: %+v" err)),
                 Build_Mem (close a s w2) machine (Some s),
                 [constructed; EvInstanceIfExists id r; EvClose s])
        | Ok None =>
            run (Exists a cluster) machine w
              = (Normal (false, None), Build_Mem (close a s w2) machine (Some s),
                 [constructed; EvInstanceIfExists id r; EvClose s])
        | Ok (Some instance) =>
            (State instance = InstanceStateRunning ∨
             State instance = InstanceStatePending →
               ∃ err rest,
                 (run (Exists a cluster) machine w).1.1 = Normal (true, err) ∧
                 (run (Exists a cluster) machine w).2
                   = constructed :: EvInstanceIfExists id r :: rest) ∧
            (¬ (State instance = InstanceStateRunning ∨
                State instance = InstanceStatePending) →
               run (Exists a cluster) machine w
                 = (Normal (false, None), Build_Mem (close a s w2) machine (Some s),
                    [constructed; EvInstanceIfExists id r; EvClose s]))
        end)) ∧
  (∀ out mem evs s,
     run (Exists a cluster) machine w = (out, mem, evs) →
     EvNewMachineScope {| Machine_ := machine; Cluster_ := cluster |} (Ok s) ∈ evs →
     (InstanceID (MachineStatus s) = None →
        out = Normal (false, None) ∧
        evs = [EvNewMachineScope {| Machine_ := machine; Cluster_ := cluster |} (Ok s);
               EvClose s]) ∧
     (∀ id, EvInstanceIfExists id (Ok None) ∈ evs →
        InstanceID (MachineStatus s) = Some id ∧ out = Normal (false, None)) ∧
     (∀ id instance, EvInstanceIfExists id (Ok (Some instance)) ∈ evs →
        InstanceID (MachineStatus s) = Some id ∧
        (State instance = InstanceStateRunning ∨ State instance = InstanceStatePending →
           ∃ err, out = Normal (true, err)) ∧
        (¬ (State instance = InstanceStateRunning ∨ State instance = InstanceStatePending) →
           out = Normal (false, None)))).
Proof.
  split.
  - intros s w1 Hscope constructed. subst constructed.
    split; [intros Hid | intros id r w2 Hid Hlookup].
    all: unfold Exists, reconcileLBAttachment; unfold_verb; simpl.
    all: rewrite Hscope; simpl; rewrite Hid; simpl.
    + done.
    + rewrite Hlookup; simpl. destruct r as [[instance |] | err]; simpl; try done.
      split; [intros Husable | intros Hnot].
      * rewrite decide_True by done. simpl.
        destruct (decide (label "set" machine = "controlplane")); simpl.
        -- destruct (registerInstanceWithAPIServerELB a (ID instance) w2)
             as [[err |] w3]; simpl; by eexists _, _.
        -- by eexists _, _.
      * by rewrite decide_False.
  - unfold Exists. intros out mem evs s Hrun Hin. run_verb.
    all: split_and!; [intros Hid | intros id' Hin' | intros id' i' Hin'].
    all: inv_events; try done; try congruence.
    all: split_and!; try done; try tauto; eauto.
Qed.

(** The status remembers a running instance, but the instance is shutting
    down: the machine does not exist. *)
Lemma Exists_state_mapping_witness :
  let m := cloud.a_machine "m1" "node" "" in
  let i := cloud.an_instance "i-m1" InstanceStateShuttingDown in
  let w := cloud.healthy {["i-m1" := i]} {["m1" := cloud.provisioned "i-m1"]} [m] in
  let s := {| ScopeName := "m1";
              MachineConfig := {| AdditionalSecurityGroups := []; AdditionalTags := ∅ |};
              MachineStatus := cloud.provisioned "i-m1" |} in
  let r := run (Exists cloud.backend cloud.a_cluster) m w in
  newMachineScope cloud.backend {| Machine_ := m; Cluster_ := cloud.a_cluster |} w
    = (Ok s, w) ∧
  InstanceState_ (MachineStatus s) = Some InstanceStateRunning ∧
  instanceIfExists cloud.backend "i-m1" w = (Ok (Some i), w) ∧
  r.1.1 = Normal (false, None) ∧
  EvInstanceIfExists "i-m1" (Ok (Some i)) ∈ r.2.
Proof.
  intros m i w s r.
  assert (Hscope : newMachineScope cloud.backend
                     {| Machine_ := m; Cluster_ := cloud.a_cluster |} w = (Ok s, w))
    by reflexivity.
  assert (Hlookup : instanceIfExists cloud.backend "i-m1" w = (Ok (Some i), w))
    by reflexivity.
  split_and!; [exact Hscope | reflexivity | exact Hlookup | |].
  all: destruct (Exists_state_mapping cloud.backend cloud.a_cluster m w) as [Hanswers _].
  all: destruct (Hanswers s w Hscope) as [_ Hfound].
  all: pose proof (Hfound "i-m1" _ w eq_refl Hlookup) as [_ Hother]; simpl in Hother.
  all: assert (Hrun := Hother ltac:(intros [H | H]; discriminate H)).
  all: unfold r; rewrite Hrun; simpl; first [reflexivity | in_events].
Defined.

(** C8.  When Exists has found the instance running or pending: for a
    machine whose label [set] is [controlplane] the instance is registered
    with the load balancer, once, and a failed registration makes Exists
    return true together with the wrapped error; for any other label no
    registration is made and Exists returns (true, nil). *)
Theorem Exists_reconciles_load_balancer {W} (a : Backend W) cluster machine w
    out mem evs id instance :
  run (Exists a cluster) machine w = (out, mem, evs) →
  EvInstanceIfExists id (Ok (Some instance)) ∈ evs →
  State instance = InstanceStateRunning ∨ State instance = InstanceStatePending →
  (label "set" machine = "controlplane" →
     ∃ r, registrations evs = [ID instance] ∧
          EvRegisterInstanceWithAPIServerELB (ID instance) r ∈ evs ∧
          (r = None → out = Normal (true, None)) ∧
          (∀ err, r = Some err →
             out = Normal (true, Some (Wrapf err
                     "could not register control plane instance %q with load balancer"
                     [ID instance])))) ∧
  (label "set" machine ≠ "controlplane" →
     registrations evs = [] ∧ out = Normal (true, None)).
Proof.
  unfold Exists. intros Hrun Hin Hst. run_verb.
  all: inv_events; try tauto.
  all: split; intros Hlabel; try done.
  all: eexists; split_and!; [done | in_events | naive_solver..].
Qed.

(** A control plane machine whose registration fails still exists. *)
Lemma Exists_reconciles_load_balancer_witness :
  let m := cloud.a_machine "cp1" "controlplane" "1.13.0" in
  let i := cloud.an_instance "i-cp1" InstanceStateRunning in
  let w := cloud.set_instances (λ _, {["i-cp1" := i]})
             {| cloud.instances := ∅;
                cloud.store := {["cp1" := cloud.provisioned "i-cp1"]};
                cloud.machines := [m]; cloud.endpoint := None;
                cloud.networkReady := true; cloud.elbHealthy := false;
                cloud.issuerHealthy := true |} in
  let r := run (Exists cloud.backend cloud.a_cluster) m w in
  EvInstanceIfExists "i-cp1" (Ok (Some i)) ∈ r.2 ∧
  (State i = InstanceStateRunning ∨ State i = InstanceStatePending) ∧
  label "set" m = "controlplane" ∧
  registrations r.2 = ["i-cp1"] ∧
  r.1.1 = Normal (true, Some (Wrapf (Foreign "load balancer unavailable")
                     "could not register control plane instance %q with load balancer"
                     ["i-cp1"])).
Proof.
  intros m i w r.
  assert (Hin : EvInstanceIfExists "i-cp1" (Ok (Some i)) ∈ r.2).
  { apply (list_elem_of_lookup_2 _ 1%nat). reflexivity. }
  assert (Hst : State i = InstanceStateRunning ∨ State i = InstanceStatePending).
  { left. reflexivity. }
  assert (Hlabel : label "set" m = "controlplane") by reflexivity.
  split_and!; [exact Hin | exact Hst | exact Hlabel | |].
  all: destruct (Exists_reconciles_load_balancer cloud.backend cloud.a_cluster m w
                   r.1.1 r.1.2 r.2 "i-cp1" i (run_eta r) Hin Hst) as [Hcp _].
  all: destruct (Hcp Hlabel) as (res & Hreg & Hev & _ & Hfail).
  - exact Hreg.
  - apply Hfail.
    remember r.2 as evs eqn:Hevs. vm_compute in Hevs. subst evs.
    by inv_events.
Defined.

(** ** Update *)

(** C9.  Update reads through the instance ID of the status and through
    the looked-up instance without a nil check.  For a scope without an
    instance ID it panics before any lookup; when the lookup answers that
    there is no instance, it panics while the arguments of
    ensureSecurityGroups are evaluated.  In both cases the outcome is a
    panic, not an error value, and only the deferred Close runs after it.
    On the same machine and world Exists answers (false, nil), and Delete
    returns nil when the instance is absent. *)
Theorem Update_panics_without_instance {W} (a : Backend W) cluster machine w s w1 :
  newMachineScope a {| Machine_ := machine; Cluster_ := cluster |} w = (Ok s, w1) →
  (InstanceID (MachineStatus s) = None →
     (run (Update a cluster) machine w).1.1 = Panic ∧
     (run (Update a cluster) machine w).2 =
       [EvNewMachineScope {| Machine_ := machine; Cluster_ := cluster |} (Ok s); EvClose s] ∧
     (run (Exists a cluster) machine w).1.1 = Normal (false, None)) ∧
  (∀ id w2,
     InstanceID (MachineStatus s) = Some id →
     instanceIfExists a id w1 = (Ok None, w2) →
     (run (Update a cluster) machine w).1.1 = Panic ∧
     (run (Update a cluster) machine w).2 =
       [EvNewMachineScope {| Machine_ := machine; Cluster_ := cluster |} (Ok s);
        EvInstanceIfExists id (Ok None); EvClose s] ∧
     (run (Exists a cluster) machine w).1.1 = Normal (false, None) ∧
     (run (Delete a cluster) machine w).1.1 = Normal None).
Proof.
  intros Hscope. split; [intros Hid | intros id w2 Hid Hlookup].
  all: unfold Update, Exists, Delete; unfold_verb; simpl.
  all: rewrite !Hscope; simpl; rewrite !Hid; simpl.
  - done.
  - rewrite !Hlookup; simpl. rewrite !Hid; simpl. done.
Qed.

(** Update on a machine whose instance is gone from EC2. *)
Lemma Update_panics_without_instance_witness :
  let m := cloud.a_machine "m1" "node" "" in
  let w := cloud.healthy ∅ {["m1" := cloud.provisioned "i-m1"]} [m] in
  let s := {| ScopeName := "m1";
              MachineConfig := {| AdditionalSecurityGroups := []; AdditionalTags := ∅ |};
              MachineStatus := cloud.provisioned "i-m1" |} in
  newMachineScope cloud.backend {| Machine_ := m; Cluster_ := cloud.a_cluster |} w = (Ok s, w) ∧
  InstanceID (MachineStatus s) = Some "i-m1" ∧
  instanceIfExists cloud.backend "i-m1" w = (Ok None, w) ∧
  (run (Update cloud.backend cloud.a_cluster) m w).1.1 = Panic ∧
  (run (Exists cloud.backend cloud.a_cluster) m w).1.1 = Normal (false, None).
Proof.
  intros m w s.
  assert (Hscope : newMachineScope cloud.backend
                     {| Machine_ := m; Cluster_ := cloud.a_cluster |} w = (Ok s, w))
    by reflexivity.
  assert (Hid : InstanceID (MachineStatus s) = Some "i-m1") by reflexivity.
  assert (Hlookup : instanceIfExists cloud.backend "i-m1" w = (Ok None, w)) by reflexivity.
  split_and!; [exact Hscope | exact Hid | exact Hlookup | |].
  all: destruct (Update_panics_without_instance cloud.backend cloud.a_cluster m w s w Hscope)
         as [_ Habsent].
  all: destruct (Habsent "i-m1" w Hid Hlookup) as (Hpanic & _ & Hexists & _).
  - exact Hpanic.
  - exact Hexists.
Defined.

(** ** The node-role classifier *)

Section isNodeJoin_facts.
Context {W : Type} (a : Backend W).

(** The loop always returns, leaves the machine and the scope of the
    verb alone, and its events and result form a [loop_trace]. *)
Lemma isNodeJoin_loop_run cms cluster b mem :
  ∃ r w evs,
    isNodeJoin_loop a cms cluster b mem
      = (Normal r, Build_Mem w (machine mem) (scope mem), evs) ∧
    loop_trace cluster cms b evs r.
Proof.
  revert b mem. induction cms as [| cm rest IH]; intros b [w0 m0 s0]; simpl.
  - eexists _, _, _. split; [reflexivity | constructor].
  - unfold_verb. simpl.
    destruct (newMachineScope a _ w0) as [[m | err] w1]; simpl.
    + destruct (machineExists a m w1) as [[[|] | err] w2]; simpl.
      * eexists _, _, _. split; [reflexivity | constructor].
      * destruct (IH false (Build_Mem w2 m0 s0)) as (r & w3 & evs & Heq & Htrace).
        unfold bind, ret in Heq. rewrite Heq. simpl.
        eexists _, _, _. split; [reflexivity | by constructor].
      * eexists _, _, _. split; [reflexivity | constructor].
    + eexists _, _, _. split; [reflexivity | constructor].
Qed.

(** The loop only constructs scopes, for control plane machines of its
    list, and checks existence. *)
Lemma loop_trace_events cluster cms b evs r ev :
  loop_trace cluster cms b evs r → ev ∈ evs →
  (∃ cm res, cm ∈ cms ∧
     ev = EvNewMachineScope {| Machine_ := cm; Cluster_ := cluster |} res) ∨
  (∃ m res, ev = EvMachineExists m res).
Proof.
  induction 1 as [| | | | cm rest b m evs r _ IH]; intros Hin.
  1-4: inv_events; set_solver.
  apply elem_of_cons in Hin as [-> | Hin]; [set_solver |].
  apply elem_of_cons in Hin as [-> | Hin]; [set_solver |].
  destruct (IH Hin) as [(cm' & res & ? & ->) | ?]; set_solver.
Qed.

(** The scopes are constructed for the machines of the list in order,
    from the first one on. *)
Lemma loop_trace_constructions cluster cms b evs r :
  loop_trace cluster cms b evs r →
  ∃ n, constructions evs = take n cms.
Proof.
  induction 1 as [| | | | cm rest b m evs r _ [n IH]].
  - by exists 0%nat.
  - by exists 1%nat.
  - by exists 1%nat.
  - by exists 1%nat.
  - exists (S n). simpl. by rewrite <- IH.
Qed.

(** The loop answers true exactly when an existence check answered true. *)
Lemma loop_trace_join cluster cms evs join err :
  loop_trace cluster cms false evs (join, err) →
  join = true ↔ ∃ m, EvMachineExists m (Ok true) ∈ evs.
Proof.
  remember (join, err) as r eqn:Hr. remember false as b eqn:Hb.
  intros Htrace. revert Hb Hr.
  induction Htrace as [| | | | cm rest b m evs r _ IH]; intros Hb Hr; simplify_eq.
  - split; [done | intros [? ?]; inv_events].
  - split; [done | intros [? ?]; inv_events].
  - split; [done | intros [? ?]; inv_events].
  - split; [intros _; eexists; in_events | done].
  - rewrite IH; [| done..]. split; intros [m' Hin]; exists m'; [in_events |].
    by inv_events.
Qed.

(** A confirmed existence ends the loop: it is the last event. *)
Lemma loop_trace_stops cluster cms b evs r m :
  loop_trace cluster cms b evs r →
  EvMachineExists m (Ok true) ∈ evs →
  last evs = Some (EvMachineExists m (Ok true)) ∧ r = (true, None).
Proof.
  induction 1 as [| | | | cm rest b m' evs r Htrace IH]; intros Hin.
  1-4: by inv_events.
  apply elem_of_cons in Hin as [? | Hin]; [done |].
  apply elem_of_cons in Hin as [? | Hin]; [done |].
  destruct (IH Hin) as [Hlast ->]. split; [| done].
  destruct evs as [| ev evs]; [by inv_events |].
  by rewrite !last_cons_cons.
Qed.

(** A failed scope construction or existence check ends the loop with
    the wrapped error. *)
Lemma loop_trace_failure cluster cms b evs r ev :
  loop_trace cluster cms b evs r → ev ∈ evs → failed_check ev →
  last evs = Some ev ∧
  match ev with
  | EvNewMachineScope params (Err err) =>
      r = (false, Some (Wrapf err "failed to create machine scope for machine %q"
                          [Name (ObjectMeta_ (Machine_ params))]))
  | EvMachineExists m (Err err) =>
      r = (false, Some (Wrapf err "failed to verify existence of machine %q"
                          [ScopeName m]))
  | _ => False
  end.
Proof.
  induction 1 as [| | | | cm rest b m' evs r Htrace IH]; intros Hin Hfailed.
  1-4: by inv_events.
  apply elem_of_cons in Hin as [-> | Hin]; [done |].
  apply elem_of_cons in Hin as [-> | Hin]; [done |].
  destruct (IH Hin Hfailed) as [Hlast ?]. split; [| done].
  destruct evs as [| ev' evs]; [by inv_events |].
  by rewrite !last_cons_cons.
Qed.

(** An error of the loop comes from a failed check. *)
Lemma loop_trace_error cluster cms b evs join err :
  loop_trace cluster cms b evs (join, Some err) →
  join = false ∧ ∃ ev, ev ∈ evs ∧ failed_check ev.
Proof.
  remember (join, Some err) as r eqn:Hr. intros Htrace. revert Hr.
  induction Htrace as [b | cm rest b e | cm rest b m e | cm rest b m
                      | cm rest b m evs r _ IH]; intros Hr; simplify_eq.
  - split; [done |].
    exists (EvNewMachineScope {| Machine_ := cm; Cluster_ := cluster |} (Err e)).
    split; [in_events | exact I].
  - split; [done |]. exists (EvMachineExists m (Err e)).
    split; [in_events | exact I].
  - destruct IH as [? (ev & ? & ?)]; [done |]. split; [done |].
    exists ev. split; [in_events | done].
Qed.

(** When the loop answers false without an error, it has asked for every
    machine of the list and every answer was false. *)
Lemma loop_trace_exhausted cluster cms evs :
  loop_trace cluster cms false evs (false, None) →
  constructions evs = cms ∧
  ∀ m res, EvMachineExists m res ∈ evs → res = Ok false.
Proof.
  remember (false, @None error) as r eqn:Hr. remember false as b eqn:Hb.
  intros Htrace. revert Hb Hr.
  induction Htrace as [| | | | cm rest b m evs r _ IH]; intros Hb Hr; simplify_eq.
  - split; [done | intros ???; inv_events].
  - destruct IH as [Hc Hall]; [done.. |]. split.
    + by rewrite <- Hc.
    + intros m' res Hin. inv_events; eauto.
Qed.

(** [isNodeJoin] always returns, and leaves the machine and the scope of
    the verb alone.  It answers by the label [set] of the new machine. *)
Lemma isNodeJoin_run cms newMachine cluster mem :
  ∃ join err w evs,
    isNodeJoin a cms newMachine cluster mem
      = (Normal (join, err), Build_Mem w (machine mem) (scope mem), evs) ∧
    ((label "set" newMachine = "node" ∧ join = true ∧ err = None ∧ evs = []) ∨
     (label "set" newMachine = "controlplane" ∧
      loop_trace cluster cms false evs (join, err)) ∨
     (label "set" newMachine ≠ "node" ∧ label "set" newMachine ≠ "controlplane" ∧
      join = false ∧ evs = [] ∧
      err = Some (UnknownSetLabel (label "set" newMachine)
                    (Name (ObjectMeta_ newMachine))))).
Proof.
  unfold isNodeJoin. destruct mem as [w0 m0 s0].
  destruct (decide (label "set" newMachine = "node")) as [Hnode | Hnode].
  { eexists _, _, _, _. split; [reflexivity |]. left. done. }
  destruct (decide (label "set" newMachine = "controlplane")) as [Hcp | Hcp].
  - destruct (isNodeJoin_loop_run cms cluster false (Build_Mem w0 m0 s0))
      as ([join err] & w1 & evs & Heq & Htrace).
    eexists _, _, _, _. split; [exact Heq |]. right. left. done.
  - eexists _, _, _, _. split; [reflexivity |]. right. right. done.
Qed.
End isNodeJoin_facts.

(** The events of the loop are none of those the readers pick. *)
Lemma omap_none {A B} (f : A → option B) (l : list A) :
  (∀ x, x ∈ l → f x = None) → omap f l = [].
Proof.
  induction l as [| x l IH]; intros Hall; [done |]. simpl.
  rewrite (Hall x); [| by left]. apply IH. intros y Hy. apply Hall. by right.
Qed.

Lemma omap_cons_None {A B} (f : A → option B) x l :
  f x = None → omap f (x :: l) = omap f l.
Proof. intros H. simpl. by rewrite H. Qed.

Lemma omap_cons_Some {A B} (f : A → option B) x y l :
  f x = Some y → omap f (x :: l) = y :: omap f l.
Proof. intros H. simpl. by rewrite H. Qed.

Lemma loop_trace_silent cluster cms b evs r :
  loop_trace cluster cms b evs r →
  creations evs = [] ∧ token_requests evs = [] ∧ closes evs = [] ∧
  registrations evs = [] ∧ terminations evs = [] ∧ lookups evs = [].
Proof.
  intros Htrace. split_and!; apply omap_none; intros ev Hin.
  all: by destruct (loop_trace_events cluster cms b evs r ev Htrace Hin)
         as [(? & ? & ? & ->) | (? & ? & ->)].
Qed.

(** ** Create *)

(** Running Create symbolically: [isNodeJoin] is replaced by what
    [isNodeJoin_run] says about it. *)
Ltac use_isNodeJoin :=
  match goal with
  | H : context [isNodeJoin ?a ?cms ?m ?c ?mem] |- _ =>
      let Heq := fresh "Hjoin" in
      let Hcase := fresh "Hcase" in
      destruct (isNodeJoin_run a cms m c mem) as (? & ? & ? & ? & Heq & Hcase);
      rewrite Heq in H; clear Heq; simpl in H;
      destruct Hcase as [(? & ? & ? & ?) | [(? & ?) | (? & ? & ? & ? & ?)]];
      simplify_eq
  end.

Ltac run_Create :=
  unfold Create in *; unfold_verb; simpl in *; simplify_eq;
  repeat first [use_isNodeJoin | step].

(** Membership in the events of a run of Create. *)
Ltac inv_loop_event H :=
  match goal with
  | Ht : loop_trace ?c ?cms ?b ?evs ?r |- _ =>
      match type of H with
      | ?ev ∈ evs =>
          solve [destruct (loop_trace_events c cms b evs r ev Ht H)
                   as [(? & ? & ? & ?) | (? & ? & ?)]; simplify_eq; simpl in *; done]
      end
  end.

Ltac inv_Create_events :=
  repeat match goal with
  | H : _ ∈ _ :: _ |- _ => apply elem_of_cons in H; destruct H as [H | H]; simplify_eq
  | H : _ ∈ _ ++ _ |- _ => apply elem_of_app in H; destruct H as [H | H]
  | H : _ ∈ [] |- _ => by apply elem_of_nil in H
  | H : _ ∈ _ |- _ => inv_loop_event H
  end.

(** What the readers find in the events of a run of Create. *)
Ltac read_events :=
  try match goal with
  | Ht : loop_trace ?c ?cms ?b ?evs ?r |- _ =>
      destruct (loop_trace_silent c cms b evs r Ht) as (? & ? & ? & ? & ? & ?)
  end;
  unfold creations, token_requests, closes, registrations, terminations, lookups in *;
  repeat first
    [ rewrite omap_app
    | rewrite omap_cons_None by reflexivity
    | erewrite omap_cons_Some by reflexivity
    | match goal with H : omap _ ?evs = [] |- context [omap _ ?evs] => rewrite H end ];
  simpl.

(** A failed check among the events of the loop makes the loop answer an
    error. *)
Ltac loop_failed :=
  match goal with
  | Ht : loop_trace ?c ?cms ?b ?evs ?r, H : ?ev ∈ ?evs, Hf : failed_check ?ev |- _ =>
      destruct (loop_trace_failure c cms b evs r ev Ht H Hf) as [? ?];
      destruct ev; simpl in *; try done; repeat case_match; simpl in *;
      simplify_eq; try done
  end.

(** C3.  When the create-or-get call of Create fails: if the cause of the
    error is a failed dependency, Create returns the requeue-after value
    with a delay of one minute (60 * 10^9 nanoseconds); for every other
    error it returns an error value that reports the failure.  Either way
    nothing is registered with the load balancer. *)
Theorem Create_requeues_on_failed_dependency {W} (a : Backend W) cluster machine w
    out mem evs s token kubeConfig err :
  run (Create a cluster) machine w = (out, mem, evs) →
  EvCreateOrGetMachine s token kubeConfig (Err err) ∈ evs →
  (isFailedDependency a (Cause err) = true →
     out = Normal (Some (RequeueAfterError time.Minute)) ∧
     time.Minute = 60 * 1000000000) ∧
  (isFailedDependency a (Cause err) = false →
     out = Normal (Some (Errorf "failed to create or get machine: %+v" err))).
Proof.
  intros Hrun Hin. run_Create.
  all: inv_Create_events.
  all: split; intros Hfd; try congruence; done.
Qed.

(** The network is not ready: Create asks to be called again in a minute. *)
Lemma Create_requeues_on_failed_dependency_witness :
  let m := cloud.a_machine "m1" "node" "" in
  let w := {| cloud.instances := ∅; cloud.store := ∅; cloud.machines := [m];
              cloud.endpoint := Some "https://10.0.0.1:6443";
              cloud.networkReady := false; cloud.elbHealthy := true;
              cloud.issuerHealthy := true |} in
  let r := run (Create cloud.backend cloud.a_cluster) m w in
  let s := {| ScopeName := "m1";
              MachineConfig := {| AdditionalSecurityGroups := []; AdditionalTags := ∅ |};
              MachineStatus := {| InstanceID := None; InstanceState_ := None |} |} in
  EvCreateOrGetMachine s "abcdef.0123456789abcdef" "kubeconfig"
    (Err (Foreign "FailedDependency")) ∈ r.2 ∧
  isFailedDependency cloud.backend (Cause (Foreign "FailedDependency")) = true ∧
  r.1.1 = Normal (Some (RequeueAfterError 60000000000)).
Proof.
  intros m w r s.
  assert (Hin : EvCreateOrGetMachine s "abcdef.0123456789abcdef" "kubeconfig"
                  (Err (Foreign "FailedDependency")) ∈ r.2).
  { apply (list_elem_of_lookup_2 _ 8%nat). reflexivity. }
  assert (Hfd : isFailedDependency cloud.backend (Cause (Foreign "FailedDependency")) = true)
    by reflexivity.
  split_and!; [exact Hin | exact Hfd |].
  destruct (Create_requeues_on_failed_dependency cloud.backend cloud.a_cluster m w
              r.1.1 r.1.2 r.2 _ _ _ _ (run_eta r) Hin) as [Hrequeue _].
  destruct (Hrequeue Hfd) as [Hout _]. exact Hout.
Defined.

(** ** The classifier inside Create *)

(** Create gives up, with an error and before any create-or-get call, when
    the label [set] is neither [node] nor [controlplane], and when a scope
    construction or an existence check fails. *)
Lemma Create_aborts_unclassified {W} (a : Backend W) cluster machine w out mem evs :
  run (Create a cluster) machine w = (out, mem, evs) →
  (label "set" machine ≠ "node" → label "set" machine ≠ "controlplane" →
     creations evs = [] ∧ ∃ err, out = Normal (Some err)) ∧
  (∀ ev, ev ∈ evs → failed_check ev →
     creations evs = [] ∧ ∃ err, out = Normal (Some err)).
Proof.
  intros Hrun. run_Create.
  all: split; [intros Hnode Hcp | intros ev Hin Hfailed]; try done.
  all: inv_Create_events; try done.
  all: try loop_failed.
  all: read_events; split; [done | eauto].
Qed.

(** Every scope the loop has constructed is asked about at once: the
    construction is followed by the existence check of that scope. *)
Lemma loop_trace_checked cluster cms b evs r params s :
  loop_trace cluster cms b evs r →
  EvNewMachineScope params (Ok s) ∈ evs →
  ∃ res pre post,
    evs = pre ++ EvNewMachineScope params (Ok s) :: EvMachineExists s res :: post.
Proof.
  induction 1 as [| | | | cm rest b m evs r _ IH]; intros Hin.
  - inv_events.
  - inv_events.
  - inv_events. by eexists _, [], [].
  - inv_events. by eexists _, [], [].
  - apply elem_of_cons in Hin as [Heq | Hin]; [simplify_eq; by eexists _, [], _ |].
    apply elem_of_cons in Hin as [Heq | Hin]; [done |].
    destruct (IH Hin) as (res & pre & post & ->).
    by eexists res, (_ :: _ :: pre), post.
Qed.

(** When no existence check answers true or fails, each machine of the list
    got its scope and the existence check of that scope, which answered
    false. *)
Lemma loop_trace_exhausted_checks cluster cms evs cm :
  loop_trace cluster cms false evs (false, None) → cm ∈ cms →
  ∃ s pre post,
    evs = pre ++ EvNewMachineScope {| Machine_ := cm; Cluster_ := cluster |} (Ok s)
                 :: EvMachineExists s (Ok false) :: post.
Proof.
  remember (false, @None error) as r eqn:Hr. remember false as b eqn:Hb.
  intros Htrace. revert Hb Hr.
  induction Htrace as [| | | | cm' rest b m evs r _ IH]; intros Hb Hr Hin; simplify_eq.
  - inv_events.
  - apply elem_of_cons in Hin as [-> | Hin]; [by eexists _, [], _ |].
    destruct (IH eq_refl eq_refl Hin) as (s & pre & post & ->).
    by eexists s, (_ :: _ :: pre), post.
Qed.

(** The loop on a backend for which constructing a scope and checking
    existence are reads of the world at hand: it makes the search of
    [existence_search] and answers whether a machine of the list exists. *)
Lemma isNodeJoin_loop_search {W} (a : Backend W) scope_of exists_ cms cluster b mem :
  (∀ cm, newMachineScope a {| Machine_ := cm; Cluster_ := cluster |} (world mem)
         = (Ok (scope_of cm), world mem)) →
  (∀ s, machineExists a s (world mem) = (Ok (exists_ s), world mem)) →
  ∃ join,
    isNodeJoin_loop a cms cluster b mem
      = (Normal (join, None), mem, existence_search scope_of exists_ cluster cms) ∧
    (join = true ↔
     (cms = [] ∧ b = true) ∨ ∃ cm, cm ∈ cms ∧ exists_ (scope_of cm) = true).
Proof.
  intros Hscope Hexists. destruct mem as [w0 m0 s0]. simpl in *.
  revert b. induction cms as [| cm rest IH]; intros b.
  - exists b. split; [done |]. split; [by left |].
    intros [[_ ->] | (cm & Hin & _)]; [done | inv_events].
  - simpl. unfold_verb. simpl. rewrite Hscope. simpl. rewrite Hexists. simpl.
    destruct (exists_ (scope_of cm)) eqn:Hcm.
    + exists true. split; [done |]. split; [| done].
      intros _. right. exists cm. split; [by left | done].
    + destruct (IH false) as (join & Heq & Hjoin).
      unfold bind, ret in Heq. rewrite Heq. exists join. split; [done |].
      rewrite Hjoin. split.
      * intros [[_ ?] | (cm' & Hin & Hcm')]; [done |].
        right. exists cm'. split; [by right | done].
      * intros [[? _] | (cm' & Hin & Hcm')]; [done |]. right.
        apply elem_of_cons in Hin as [-> | Hin]; [congruence |]. by exists cm'.
Qed.

(** C4.  The node-role classifier always answers.  For the label [node] it
    answers (true, nil) without asking anything.  For the label
    [controlplane] it constructs scopes for the control plane machines in
    order and asks whether each exists, every constructed scope being asked
    about at once: it answers true exactly when a check answered true, and
    that check is the last thing it does; a failed scope construction or
    existence check is also the last thing it does and makes it answer false
    with an error; without a confirmed existence and without a failure it
    has asked for every machine of the list.  For any other value of the
    label, the absent label included, it answers false with an error and
    asks nothing.  On a backend for which constructing a scope and checking
    existence only read the world, the classifier of a [controlplane]
    machine answers true exactly when a machine of the list exists, after
    the search that stops at the first machine that exists.  In Create an
    error of the classifier, as well as any failed scope construction or
    existence check, ends the verb with an error before any create-or-get
    call. *)
Theorem isNodeJoin_classifies {W} (a : Backend W) cluster :
  (∀ controlPlaneMachines newMachine mem,
     ∃ join err mem' evs,
       isNodeJoin a controlPlaneMachines newMachine cluster mem
         = (Normal (join, err), mem', evs) ∧
       (label "set" newMachine = "node" → join = true ∧ err = None ∧ evs = []) ∧
       (label "set" newMachine = "controlplane" →
          (join = true ↔ ∃ m, EvMachineExists m (Ok true) ∈ evs) ∧
          (∀ m, EvMachineExists m (Ok true) ∈ evs →
             last evs = Some (EvMachineExists m (Ok true)) ∧ err = None) ∧
          (∃ n, constructions evs = take n controlPlaneMachines) ∧
          (∀ ev, ev ∈ evs → failed_check ev →
             join = false ∧ is_Some err ∧ last evs = Some ev) ∧
          (is_Some err → join = false ∧ ∃ ev, ev ∈ evs ∧ failed_check ev) ∧
          (join = false → err = None →
             constructions evs = controlPlaneMachines ∧
             ∀ m res, EvMachineExists m res ∈ evs → res = Ok false) ∧
          (∀ params s, EvNewMachineScope params (Ok s) ∈ evs →
             ∃ res pre post,
               evs = pre ++ EvNewMachineScope params (Ok s)
                            :: EvMachineExists s res :: post) ∧
          (join = false → err = None →
             ∀ cm, cm ∈ controlPlaneMachines →
               ∃ s pre post,
                 evs = pre ++ EvNewMachineScope {| Machine_ := cm; Cluster_ := cluster |}
                                (Ok s)
                              :: EvMachineExists s (Ok false) :: post)) ∧
       (label "set" newMachine ≠ "node" → label "set" newMachine ≠ "controlplane" →
          join = false ∧ evs = [] ∧
          err = Some (UnknownSetLabel (label "set" newMachine)
                        (Name (ObjectMeta_ newMachine))))) ∧
  (∀ scope_of exists_ controlPlaneMachines newMachine mem,
     (∀ cm, newMachineScope a {| Machine_ := cm; Cluster_ := cluster |} (world mem)
            = (Ok (scope_of cm), world mem)) →
     (∀ s, machineExists a s (world mem) = (Ok (exists_ s), world mem)) →
     label "set" newMachine = "controlplane" →
     ∃ join,
       isNodeJoin a controlPlaneMachines newMachine cluster mem
         = (Normal (join, None), mem,
            existence_search scope_of exists_ cluster controlPlaneMachines) ∧
       (join = true ↔
        ∃ cm, cm ∈ controlPlaneMachines ∧ exists_ (scope_of cm) = true)) ∧
  (∀ machine w out mem evs,
     run (Create a cluster) machine w = (out, mem, evs) →
     (label "set" machine ≠ "node" → label "set" machine ≠ "controlplane" →
        creations evs = [] ∧ ∃ err, out = Normal (Some err)) ∧
     (∀ ev, ev ∈ evs → failed_check ev →
        creations evs = [] ∧ ∃ err, out = Normal (Some err))).
Proof.
  split_and!; [| | apply Create_aborts_unclassified].
  - intros cms newMachine mem.
    destruct (isNodeJoin_run a cms newMachine cluster mem)
      as (join & err & w & evs & Heq & Hcase).
    eexists join, err, _, evs. split; [exact Heq |].
    destruct Hcase
      as [(Hnode & -> & -> & ->) | [(Hcp & Htrace) | (Hnode & Hcp & -> & -> & ->)]].
    + split_and!; [done | intros Hcp; rewrite Hnode in Hcp; discriminate Hcp | done].
    + split_and!; [intros Hnode; rewrite Hcp in Hnode; discriminate Hnode | | done].
      intros _. split_and!.
      * by eapply loop_trace_join.
      * intros m Hin.
        destruct (loop_trace_stops _ _ _ _ _ _ Htrace Hin) as [Hlast Hr].
        by simplify_eq.
      * by eapply loop_trace_constructions.
      * intros ev Hin Hfailed.
        destruct (loop_trace_failure _ _ _ _ _ _ Htrace Hin Hfailed) as [Hlast Hr].
        destruct ev; simpl in *; try done; repeat case_match; simpl in *;
          simplify_eq; try done.
      * intros [e ->]. by eapply loop_trace_error.
      * intros -> ->. by eapply loop_trace_exhausted.
      * intros params s Hin. by eapply loop_trace_checked.
      * intros -> -> cm Hin. by eapply loop_trace_exhausted_checks.
    + split_and!; done.
  - intros scope_of exists_ cms newMachine mem Hscope Hexists Hcp.
    unfold isNodeJoin. rewrite Hcp.
    rewrite decide_False by discriminate. rewrite decide_True by done.
    destruct (isNodeJoin_loop_search a scope_of exists_ cms cluster false mem
                Hscope Hexists) as (join & Heq & Hjoin).
    exists join. split; [exact Heq |]. rewrite Hjoin. split; [| by right].
    intros [[_ ?] | ?]; done.
Qed.

(** A third control plane machine is classified against two others, on the
    cloud, where scopes and existence are read from the store and from EC2:
    the first has no instance, the second is running, so the machine joins,
    after two scopes and two existence checks. *)
Lemma isNodeJoin_classifies_witness :
  let cp1 := cloud.a_machine "cp1" "controlplane" "1.13.0" in
  let cp2 := cloud.a_machine "cp2" "controlplane" "1.13.0" in
  let cp3 := cloud.a_machine "cp3" "controlplane" "1.13.0" in
  let w := cloud.healthy {["i-cp2" := cloud.an_instance "i-cp2" InstanceStateRunning]}
             {["cp2" := cloud.provisioned "i-cp2"]} [cp1; cp2; cp3] in
  let mem := Build_Mem w cp3 None in
  let scope_of := λ cm,
    {| ScopeName := Name (ObjectMeta_ cm);
       MachineConfig := {| AdditionalSecurityGroups := []; AdditionalTags := ∅ |};
       MachineStatus := default {| InstanceID := None; InstanceState_ := None |}
                                (cloud.store w !! Name (ObjectMeta_ cm)) |} in
  let exists_ := λ s,
    match InstanceID (MachineStatus s) with
    | Some id => from_option cloud.usable false (cloud.instances w !! id)
    | None => false
    end in
  let r := isNodeJoin cloud.backend [cp1; cp2; cp3] cp3 cloud.a_cluster mem in
  (∀ cm, newMachineScope cloud.backend {| Machine_ := cm; Cluster_ := cloud.a_cluster |} w
         = (Ok (scope_of cm), w)) ∧
  (∀ s, machineExists cloud.backend s w = (Ok (exists_ s), w)) ∧
  label "set" cp3 = "controlplane" ∧
  (∃ cm, cm ∈ [cp1; cp2; cp3] ∧ exists_ (scope_of cm) = true) ∧
  r.1.1 = Normal (true, None) ∧
  r.2 = [EvNewMachineScope {| Machine_ := cp1; Cluster_ := cloud.a_cluster |}
           (Ok (scope_of cp1));
         EvMachineExists (scope_of cp1) (Ok false);
         EvNewMachineScope {| Machine_ := cp2; Cluster_ := cloud.a_cluster |}
           (Ok (scope_of cp2));
         EvMachineExists (scope_of cp2) (Ok true)].
Proof.
  intros cp1 cp2 cp3 w mem scope_of exists_ r.
  assert (Hscope : ∀ cm,
            newMachineScope cloud.backend {| Machine_ := cm; Cluster_ := cloud.a_cluster |}
              (world mem) = (Ok (scope_of cm), world mem)).
  { intros cm. reflexivity. }
  assert (Hexists : ∀ s, machineExists cloud.backend s (world mem)
                         = (Ok (exists_ s), world mem)).
  { intros s. unfold exists_. simpl. unfold cloud.exists_.
    destruct (InstanceID (MachineStatus s)); reflexivity. }
  assert (Hlabel : label "set" cp3 = "controlplane") by reflexivity.
  assert (Hsome : ∃ cm, cm ∈ [cp1; cp2; cp3] ∧ exists_ (scope_of cm) = true).
  { exists cp2. split; [| reflexivity]. apply (list_elem_of_lookup_2 _ 1%nat). reflexivity. }
  split_and!; [exact Hscope | exact Hexists | exact Hlabel | exact Hsome | |].
  all: destruct (isNodeJoin_classifies cloud.backend cloud.a_cluster) as (_ & Hsearch & _).
  all: destruct (Hsearch scope_of exists_ [cp1; cp2; cp3] cp3 mem Hscope Hexists Hlabel)
         as (join & Hrun & Hjoin).
  all: apply Hjoin in Hsome; subst join.
  all: unfold r; rewrite Hrun; reflexivity.
Defined.

(** ** The bootstrap token *)

Lemma elem_of_app_l {A} (x : A) l1 l2 : x ∈ l1 → x ∈ l1 ++ l2.
Proof. intros. apply elem_of_app. by left. Qed.

Lemma elem_of_app_r {A} (x : A) l1 l2 : x ∈ l2 → x ∈ l1 ++ l2.
Proof. intros. apply elem_of_app. by right. Qed.

(** Membership and order goals in the events of a run of Create. *)
Ltac in_Create_events :=
  eauto 20 using list_elem_of_here, list_elem_of_further, elem_of_app_l, elem_of_app_r.

Ltac ordered_events :=
  eauto 30 using sublist_nil_l, sublist_skip, sublist_cons, sublist_inserts_l,
    sublist_inserts_r.

(** Whether the leaf at hand is one of a joining machine. *)
Ltac not_joining H :=
  destruct H as [? | [? [? ?]]]; [congruence |];
  inv_Create_events;
  match goal with
  | Ht : loop_trace _ _ false ?evs (false, _), Hin : EvMachineExists _ (Ok true) ∈ ?evs |- _ =>
      assert (false = true) by (apply (loop_trace_join _ _ _ _ _ Ht); eauto); done
  end.

Ltac is_joining :=
  first
    [ by left
    | right; split; [done |];
      match goal with
      | Ht : loop_trace _ _ false ?evs (true, _) |- _ =>
          destruct (proj1 (loop_trace_join _ _ _ _ _ Ht) eq_refl) as [? ?];
          eexists; in_Create_events
      end ].

(** C6.  In Create, a machine classified as joining gets its bootstrap
    token before the instance: every create-or-get call comes after a
    successful token request with a lifetime of ten minutes, and is passed
    the token that request answered.  A failure on the way to the token (the
    kubeconfig, the client configuration, the client, the issuer) ends the
    verb with an error and without any create-or-get call.  A token is only
    ever requested for a joining machine and with a lifetime of ten minutes;
    a machine that is not joining is created with the empty token. *)
Theorem Create_token_before_instance {W} (a : Backend W) cluster machine w out mem evs :
  run (Create a cluster) machine w = (out, mem, evs) →
  (joins machine evs →
     ∀ s token kubeConfig r,
       EvCreateOrGetMachine s token kubeConfig r ∈ evs →
       ∃ coreClient,
         [EvNewBootstrap coreClient (10 * time.Minute) (Ok token);
          EvCreateOrGetMachine s token kubeConfig r] `sublist_of` evs) ∧
  (∀ ev, ev ∈ evs → token_failure ev →
     creations evs = [] ∧ ∃ err, out = Normal (Some err)) ∧
  (∀ coreClient ttl r,
     EvNewBootstrap coreClient ttl r ∈ evs →
     ttl = 10 * time.Minute ∧ ttl = 600 * 1000000000 ∧ joins machine evs) ∧
  (¬ joins machine evs →
     token_requests evs = [] ∧
     ∀ s token kubeConfig r,
       EvCreateOrGetMachine s token kubeConfig r ∈ evs → token = "").
Proof.
  intros Hrun. run_Create.
  all: split_and!;
    [ intros Hjoins s' token' kc' r' Hin; inv_Create_events; try done;
      first [ by (eexists; ordered_events) | by not_joining Hjoins ]
    | intros ev Hin Hfailed; inv_Create_events; try done;
      by (read_events; split; [done | eauto])
    | intros c' ttl' r' Hin; inv_Create_events; try done;
      by (split_and!; [done | done | is_joining])
    | intros Hjoins;
      first [ by (exfalso; apply Hjoins; is_joining)
            | by (read_events; split; [done |]; intros; inv_Create_events) ] ].
Qed.

(** A worker node is created with the token that was issued for it. *)
Lemma Create_token_before_instance_witness :
  let m := cloud.a_machine "m1" "node" "" in
  let w := cloud.healthy ∅ ∅ [m] in
  let r := run (Create cloud.backend cloud.a_cluster) m w in
  let s := {| ScopeName := "m1";
              MachineConfig := {| AdditionalSecurityGroups := []; AdditionalTags := ∅ |};
              MachineStatus := {| InstanceID := None; InstanceState_ := None |} |} in
  let i := {| ID := "i-m1"; State := InstanceStatePending; SecurityGroupIDs := [] |} in
  joins m r.2 ∧
  EvCreateOrGetMachine s "abcdef.0123456789abcdef" "kubeconfig" (Ok (Some i)) ∈ r.2 ∧
  ∃ coreClient,
    [EvNewBootstrap coreClient 600000000000 (Ok "abcdef.0123456789abcdef");
     EvCreateOrGetMachine s "abcdef.0123456789abcdef" "kubeconfig" (Ok (Some i))]
    `sublist_of` r.2.
Proof.
  intros m w r s i.
  assert (Hjoins : joins m r.2) by (left; reflexivity).
  assert (Hin : EvCreateOrGetMachine s "abcdef.0123456789abcdef" "kubeconfig"
                  (Ok (Some i)) ∈ r.2).
  { apply (list_elem_of_lookup_2 _ 8%nat). reflexivity. }
  split_and!; [exact Hjoins | exact Hin |].
  destruct (Create_token_before_instance cloud.backend cloud.a_cluster m w
              r.1.1 r.1.2 r.2 (run_eta r)) as [Hbefore _].
  exact (Hbefore Hjoins _ _ _ _ Hin).
Defined.

(** ** The scope is closed on every way out *)

Lemma last_cons_snoc {A} (x y : A) l : last (x :: l ++ [y]) = Some y.
Proof. by rewrite app_comm_cons, last_snoc. Qed.




(** ** The control plane machines *)

Lemma getControlPlaneMachines_loop_filter items cpm :
  getControlPlaneMachines_loop items cpm
    = cpm ++ filter (λ m, ControlPlane (Versions (Spec m)) ≠ "") items.
Proof.
  revert cpm. induction items as [| m items IH]; intros cpm; simpl.
  - by rewrite app_nil_r.
  - rewrite filter_cons. destruct (decide (ControlPlane (Versions (Spec m)) ≠ "")).
    + rewrite IH. by rewrite <- app_assoc.
    + apply IH.
Qed.

Lemma getControlPlaneMachines_filter machineList :
  getControlPlaneMachines machineList
    = filter (λ m, ControlPlane (Versions (Spec m)) ≠ "") (Items machineList).
Proof. unfold getControlPlaneMachines. by rewrite getControlPlaneMachines_loop_filter. Qed.

(** The scopes Create constructs: one for the machine itself, then those
    of the classifier, for the first control plane machines of the list. *)
Lemma Create_constructions {W} (a : Backend W) cluster machine w out mem evs sc ml :
  run (Create a cluster) machine w = (out, mem, evs) →
  EvList sc (Ok ml) ∈ evs →
  ∃ n, constructions evs = machine :: take n (getControlPlaneMachines ml).
Proof.
  intros Hrun Hin. run_Create.
  all: inv_Create_events.
  all: try by exists 0%nat.
  all: match goal with
       | Ht : loop_trace _ _ _ _ _ |- _ =>
           destruct (loop_trace_constructions _ _ _ _ _ Ht) as [n Hn]; exists n
       end.
  all: unfold constructions in *.
  all: repeat first
         [ rewrite omap_app
         | rewrite omap_cons_None by reflexivity
         | erewrite omap_cons_Some by reflexivity ].
  all: by rewrite Hn, ?app_nil_r.
Qed.

(** C10.  The control plane machines are those of the list whose control
    plane version is not empty, in the order of the list; the label [set]
    plays no part.  In Create, after the scope of the machine itself, scopes
    are constructed (and existence is asked) only for such machines: a
    machine labelled [controlplane] whose control plane version is empty is
    not among them. *)
Theorem control_plane_machines_by_version {W} (a : Backend W) cluster :
  (∀ machineList,
     getControlPlaneMachines machineList
       = filter (λ m, ControlPlane (Versions (Spec m)) ≠ "") (Items machineList)) ∧
  (∀ machineList m,
     m ∈ getControlPlaneMachines machineList ↔
     m ∈ Items machineList ∧ ControlPlane (Versions (Spec m)) ≠ "") ∧
  (∀ machine w out mem evs sc machineList,
     run (Create a cluster) machine w = (out, mem, evs) →
     EvList sc (Ok machineList) ∈ evs →
     (∃ n, constructions evs = machine :: take n (getControlPlaneMachines machineList)) ∧
     (∀ m, m ∈ tail (constructions evs) →
        m ∈ Items machineList ∧ ControlPlane (Versions (Spec m)) ≠ "") ∧
     (∀ m, label "set" m = "controlplane" → ControlPlane (Versions (Spec m)) = "" →
        m ∉ tail (constructions evs))).
Proof.
  assert (Hmem : ∀ machineList m,
            m ∈ getControlPlaneMachines machineList ↔
            m ∈ Items machineList ∧ ControlPlane (Versions (Spec m)) ≠ "").
  { intros machineList m. rewrite getControlPlaneMachines_filter, list_elem_of_filter.
    tauto. }
  split_and!; [apply getControlPlaneMachines_filter | exact Hmem |].
  intros machine w out mem evs sc machineList Hrun Hin.
  destruct (Create_constructions a cluster machine w out mem evs sc machineList Hrun Hin)
    as [n Hn].
  assert (Htail : ∀ m, m ∈ tail (constructions evs) →
            m ∈ Items machineList ∧ ControlPlane (Versions (Spec m)) ≠ "").
  { intros m. rewrite Hn. simpl. intros Hm. apply Hmem.
    apply elem_of_take in Hm as (i & Hi & _). by eapply list_elem_of_lookup_2. }
  split_and!; [by exists n | exact Htail |].
  intros m _ Hempty Hm. by destruct (Htail m Hm) as [_ ?].
Qed.

(** A machine labelled [controlplane] without a control plane version is
    not asked about, although its instance is running: the new control
    plane machine is not classified as joining. *)
Lemma control_plane_machines_by_version_witness :
  let old := cloud.a_machine "cp1" "controlplane" "" in
  let new := cloud.a_machine "cp2" "controlplane" "1.13.0" in
  let w := cloud.healthy {["i-cp1" := cloud.an_instance "i-cp1" InstanceStateRunning]}
             {["cp1" := cloud.provisioned "i-cp1"]} [old; new] in
  let r := run (Create cloud.backend cloud.a_cluster) new w in
  let s := {| ScopeName := "cp2";
              MachineConfig := {| AdditionalSecurityGroups := []; AdditionalTags := ∅ |};
              MachineStatus := {| InstanceID := None; InstanceState_ := None |} |} in
  EvList s (Ok {| Items := [old; new] |}) ∈ r.2 ∧
  label "set" old = "controlplane" ∧
  ControlPlane (Versions (Spec old)) = "" ∧
  (old ∉ tail (constructions r.2)) ∧
  token_requests r.2 = [].
Proof.
  intros old new w r s.
  assert (Hin : EvList s (Ok {| Items := [old; new] |}) ∈ r.2).
  { apply (list_elem_of_lookup_2 _ 2%nat). reflexivity. }
  assert (Hlabel : label "set" old = "controlplane") by reflexivity.
  assert (Hempty : ControlPlane (Versions (Spec old)) = "") by reflexivity.
  split_and!; [exact Hin | exact Hlabel | exact Hempty | | reflexivity].
  destruct (control_plane_machines_by_version cloud.backend cloud.a_cluster)
    as (_ & _ & HCreate).
  destruct (HCreate new w r.1.1 r.1.2 r.2 s {| Items := [old; new] |} (run_eta r) Hin)
    as (_ & _ & Hexcluded).
  exact (Hexcluded old Hlabel Hempty).
Defined.

(** * Further properties of the actuator *)

(** ** machinesEqual *)

(** X1.  [machinesEqual] is an equivalence on machines that looks at the
    name and the namespace only: machines that differ in their labels,
    annotations or spec are equal as soon as name and namespace agree, and
    machines are different as soon as one of the two differs. *)
Theorem machinesEqual_equivalence :
  (∀ m, machinesEqual m m = true) ∧
  (∀ m1 m2, machinesEqual m1 m2 = machinesEqual m2 m1) ∧
  (∀ m1 m2 m3,
     machinesEqual m1 m2 = true → machinesEqual m2 m3 = true →
     machinesEqual m1 m3 = true) ∧
  (∀ m labels annotations spec,
     machinesEqual m
       {| ObjectMeta_ := {| Name := Name (ObjectMeta_ m);
                            Namespace := Namespace (ObjectMeta_ m);
                            Labels := labels; Annotations := annotations |};
          Spec := spec |} = true) ∧
  (∀ m1 m2,
     machinesEqual m1 m2 = false ↔
     Name (ObjectMeta_ m1) ≠ Name (ObjectMeta_ m2) ∨
     Namespace (ObjectMeta_ m1) ≠ Namespace (ObjectMeta_ m2)).
Proof.
  unfold machinesEqual. split_and!.
  - intros m. by rewrite !bool_decide_eq_true_2.
  - intros m1 m2.
    repeat case_bool_decide; simpl; congruence.
  - intros m1 m2 m3.
    rewrite !andb_true_iff, !bool_decide_eq_true. intros [-> ->] [-> ->]. done.
  - intros m labels annotations spec. simpl. by rewrite !bool_decide_eq_true_2.
  - intros m1 m2. rewrite andb_false_iff, !bool_decide_eq_false. done.
Qed.

(** ** When the scope cannot be constructed *)

(** X2.  When the construction of the scope fails, each verb returns the
    error at once: the failed construction is its only call, nothing is
    closed, and the machine is left as it was.  Exists answers false with
    the error. *)
Theorem verbs_give_up_without_scope {W} (a : Backend W) cluster m w err w1 :
  newMachineScope a {| Machine_ := m; Cluster_ := cluster |} w = (Err err, w1) →
  let failure := Errorf "failed to create scope: %+v" err in
  let evs := [EvNewMachineScope {| Machine_ := m; Cluster_ := cluster |} (Err err)] in
  run (Create a cluster) m w = (Normal (Some failure), Build_Mem w1 m None, evs) ∧
  run (Delete a cluster) m w = (Normal (Some failure), Build_Mem w1 m None, evs) ∧
  run (Update a cluster) m w = (Normal (Some failure), Build_Mem w1 m None, evs) ∧
  run (Exists a cluster) m w = (Normal (false, Some failure), Build_Mem w1 m None, evs).
Proof.
  intros Hscope failure evs.
  unfold Create, Delete, Update, Exists. unfold_verb. simpl.
  rewrite !Hscope. done.
Qed.

(** The store is down: Delete reports it and does nothing else. *)
Lemma verbs_give_up_without_scope_witness :
  let m := cloud.a_machine "m1" "node" "" in
  let w := cloud.healthy ∅ ∅ [m] in
  let a := faulty_cloud (Some (Foreign "store unavailable")) None false in
  newMachineScope a {| Machine_ := m; Cluster_ := cloud.a_cluster |} w
    = (Err (Foreign "store unavailable"), w) ∧
  (run (Delete a cloud.a_cluster) m w).1.1
    = Normal (Some (Errorf "failed to create scope: %+v" (Foreign "store unavailable"))) ∧
  closes (run (Delete a cloud.a_cluster) m w).2 = [].
Proof.
  intros m w a.
  assert (Hscope : newMachineScope a {| Machine_ := m; Cluster_ := cloud.a_cluster |} w
                   = (Err (Foreign "store unavailable"), w)) by reflexivity.
  split; [exact Hscope |].
  destruct (verbs_give_up_without_scope a cloud.a_cluster m w _ _ Hscope)
    as (_ & HDelete & _ & _).
  rewrite HDelete. split; reflexivity.
Defined.

(** ** The classifier calls nothing but scopes and existence checks *)

(** X3.  [isNodeJoin] only constructs scopes and asks for existence: it
    requests no token, creates, looks up, terminates and registers nothing,
    and it does not close the scopes it constructs.  It constructs at most
    one scope for each control plane machine of its list, and asks for
    existence once for each scope it got.  It leaves the machine and the
    scope of the verb as they are. *)
Theorem isNodeJoin_only_checks {W} (a : Backend W) controlPlaneMachines newMachine
    cluster mem out mem' evs :
  isNodeJoin a controlPlaneMachines newMachine cluster mem = (out, mem', evs) →
  machine mem' = machine mem ∧ scope mem' = scope mem ∧
  closes evs = [] ∧ creations evs = [] ∧ token_requests evs = [] ∧
  registrations evs = [] ∧ terminations evs = [] ∧ lookups evs = [] ∧
  (length (constructions evs) ≤ length controlPlaneMachines)%nat ∧
  (∀ ev, ev ∈ evs →
     (∃ cm r, cm ∈ controlPlaneMachines ∧
        ev = EvNewMachineScope {| Machine_ := cm; Cluster_ := cluster |} r) ∨
     (∃ s r, ev = EvMachineExists s r)).
Proof.
  intros Hrun.
  destruct (isNodeJoin_run a controlPlaneMachines newMachine cluster mem)
    as (join & err & w & evs' & Heq & Hcase).
  rewrite Heq in Hrun. simplify_eq. simpl.
  destruct Hcase as [(_ & _ & _ & ->) | [(_ & Htrace) | (_ & _ & _ & -> & _)]].
  - split_and!; try done; [simpl; lia | intros ev Hin; inv_events].
  - destruct (loop_trace_silent _ _ _ _ _ Htrace) as (? & ? & ? & ? & ? & ?).
    destruct (loop_trace_constructions _ _ _ _ _ Htrace) as [n Hn].
    split_and!; try done.
    + rewrite Hn, length_take. lia.
    + intros ev Hin. by eapply loop_trace_events.
  - split_and!; try done; [simpl; lia | intros ev Hin; inv_events].
Qed.

(** A control plane machine is classified against two others: the first
    has no instance, the second is running. *)
Lemma isNodeJoin_only_checks_witness :
  let cp1 := cloud.a_machine "cp1" "controlplane" "1.13.0" in
  let cp2 := cloud.a_machine "cp2" "controlplane" "1.13.0" in
  let cp3 := cloud.a_machine "cp3" "controlplane" "1.13.0" in
  let w := cloud.healthy {["i-cp2" := cloud.an_instance "i-cp2" InstanceStateRunning]}
             {["cp2" := cloud.provisioned "i-cp2"]} [cp1; cp2; cp3] in
  let r := isNodeJoin cloud.backend [cp1; cp2] cp3 cloud.a_cluster (Build_Mem w cp3 None) in
  r.1.1 = Normal (true, None) ∧ constructions r.2 = [cp1; cp2] ∧ closes r.2 = [].
Proof.
  intros cp1 cp2 cp3 w r.
  destruct (isNodeJoin_only_checks cloud.backend [cp1; cp2] cp3 cloud.a_cluster
              (Build_Mem w cp3 None) r.1.1 r.1.2 r.2 (run_eta r))
    as (_ & _ & Hcloses & _).
  split_and!; [reflexivity | reflexivity | exact Hcloses].
Defined.

(** ** The bootstrap token, step by step *)

(** X4.  [getNodeJoinToken] always returns and leaves the machine and the
    scope alone.  When it returns a token without an error, it has made
    four calls, each fed with the answer of the one before: the kubeconfig
    of the cluster, the client configuration for the control plane URL and
    that kubeconfig, the client for that configuration, and the token for
    that client with a lifetime of ten minutes.  When it returns an error,
    the token is empty, the failed call is the last one it made, and the
    cause of the returned error is the cause of the error that call
    answered. *)
Theorem getNodeJoinToken_chain {W} (a : Backend W) cluster controlPlaneURL
    mem out mem' evs :
  getNodeJoinToken a cluster controlPlaneURL mem = (out, mem', evs) →
  machine mem' = machine mem ∧ scope mem' = scope mem ∧
  ∃ token err,
    out = Normal (token, err) ∧
    (err = None →
       ∃ kubeConfig clientConfig coreClient,
         evs = [EvGetKubeConfig cluster (Ok kubeConfig);
                EvBuildConfig controlPlaneURL kubeConfig (Ok clientConfig);
                EvNewForConfig clientConfig (Ok coreClient);
                EvNewBootstrap coreClient (10 * time.Minute) (Ok token)]) ∧
    (∀ e, err = Some e →
       token = "" ∧
       ∃ ev cause,
         last evs = Some ev ∧ token_failure ev ∧ error_of ev = Some cause ∧
         Cause e = Cause cause ∧
         ∀ ev', ev' ∈ evs → failed_call ev' → ev' = ev).
Proof.
  unfold getNodeJoinToken. intros Hrun. destruct mem as [w0 m0 s0]. run_verb.
  all: split_and!; [done | done |]; eexists _, _; split_and!;
    [ done
    | intros Hnone; simplify_eq; try by eexists _, _, _
    | intros e' Hsome; simplify_eq ].
  all: split; [done |]; eexists _, _; split_and!;
    [reflexivity | exact I | reflexivity | reflexivity |].
  all: intros ev' Hin Hfailed; inv_events; simpl in *; done.
Qed.

(** The issuer is down: the token request is the call that failed. *)
Lemma getNodeJoinToken_chain_witness :
  let m := cloud.a_machine "m1" "node" "" in
  let w := {| cloud.instances := ∅; cloud.store := ∅; cloud.machines := [m];
              cloud.endpoint := Some "https://10.0.0.1:6443";
              cloud.networkReady := true; cloud.elbHealthy := true;
              cloud.issuerHealthy := false |} in
  let r := getNodeJoinToken cloud.backend cloud.a_cluster "https://10.0.0.1:6443"
             (Build_Mem w m None) in
  r.1.1 = Normal ("", Some (Wrapf (Foreign "token issuer unavailable")
                             "failed to create new bootstrap token" [])) ∧
  machine r.1.2 = m ∧
  last r.2 = Some (EvNewBootstrap "https://10.0.0.1:6443" 600000000000
                     (Err (Foreign "token issuer unavailable"))).
Proof.
  intros m w r.
  destruct (getNodeJoinToken_chain cloud.backend cloud.a_cluster "https://10.0.0.1:6443"
              (Build_Mem w m None) r.1.1 r.1.2 r.2 (run_eta r))
    as (Hmachine & _ & _).
  split_and!; [reflexivity | exact Hmachine | reflexivity].
Defined.

(** ** Delete, the other way round *)

(** X5.  Delete sends a terminate request only for the instance ID of the
    status, and only after the lookup of that ID has found an instance that
    is neither shutting down nor terminated.  It never creates an instance,
    requests a token or registers with the load balancer, and a failed
    lookup makes it return an error without a terminate request. *)
Theorem Delete_terminates_only_live {W} (a : Backend W) cluster m w out mem evs :
  run (Delete a cluster) m w = (out, mem, evs) →
  (∀ id r, EvTerminateInstance id r ∈ evs →
     ∃ s instance,
       head evs = Some (EvNewMachineScope {| Machine_ := m; Cluster_ := cluster |} (Ok s)) ∧
       InstanceID (MachineStatus s) = Some id ∧
       [EvInstanceIfExists id (Ok (Some instance)); EvTerminateInstance id r]
         `sublist_of` evs ∧
       State instance ≠ InstanceStateShuttingDown ∧
       State instance ≠ InstanceStateTerminated) ∧
  (∀ id err, EvInstanceIfExists id (Err err) ∈ evs →
     out = Normal (Some (Errorf "failed to get instance: %+v" err)) ∧
     terminations evs = []) ∧
  creations evs = [] ∧ token_requests evs = [] ∧ registrations evs = [] ∧
  machine mem = m.
Proof.
  unfold Delete. intros Hrun. run_verb.
  all: split_and!;
    [ intros id' r' Hin; inv_events; try done;
      eexists _, _; split_and!; first [reflexivity | done | ordered_events | tauto]
    | intros id' err' Hin; by inv_events
    | done.. ].
Qed.

(** A running instance: the terminate request follows the lookup. *)
Lemma Delete_terminates_only_live_witness :
  let m := cloud.a_machine "m1" "node" "" in
  let i := cloud.an_instance "i-m1" InstanceStateRunning in
  let w := cloud.healthy {["i-m1" := i]} {["m1" := cloud.provisioned "i-m1"]} [m] in
  let r := run (Delete cloud.backend cloud.a_cluster) m w in
  EvTerminateInstance "i-m1" None ∈ r.2 ∧
  ∃ instance,
    [EvInstanceIfExists "i-m1" (Ok (Some instance)); EvTerminateInstance "i-m1" None]
      `sublist_of` r.2 ∧
    State instance ≠ InstanceStateShuttingDown.
Proof.
  intros m i w r.
  assert (Hin : EvTerminateInstance "i-m1" None ∈ r.2).
  { apply (list_elem_of_lookup_2 _ 2%nat). reflexivity. }
  split; [exact Hin |].
  destruct (Delete_terminates_only_live cloud.backend cloud.a_cluster m w
              r.1.1 r.1.2 r.2 (run_eta r)) as (Hterm & _).
  destruct (Hterm "i-m1" None Hin) as (s & i' & _ & _ & Hsub & Hlive & _).
  exists i'. split; [exact Hsub | exact Hlive].
Defined.

(** ** Exists, the other way round *)

(** X6.  Exists never panics.  It answers true only after the lookup of the
    instance ID of the status has found an instance that is running or
    pending.  It registers with the load balancer only for a machine
    labelled [controlplane], only when it answers true, and only the ID of
    the instance it has found.  A failed lookup makes it answer false with
    the error, without a registration.  It never creates or terminates an
    instance, requests no token and leaves the machine as it is. *)
Theorem Exists_affirms_only_usable {W} (a : Backend W) cluster m w out mem evs :
  run (Exists a cluster) m w = (out, mem, evs) →
  (∃ b err, out = Normal (b, err)) ∧
  (∀ err, out = Normal (true, err) →
     ∃ s id instance,
       head evs = Some (EvNewMachineScope {| Machine_ := m; Cluster_ := cluster |} (Ok s)) ∧
       InstanceID (MachineStatus s) = Some id ∧
       EvInstanceIfExists id (Ok (Some instance)) ∈ evs ∧
       (State instance = InstanceStateRunning ∨ State instance = InstanceStatePending)) ∧
  (∀ id r, EvRegisterInstanceWithAPIServerELB id r ∈ evs →
     label "set" m = "controlplane" ∧
     (∃ err, out = Normal (true, err)) ∧
     ∃ lookup instance,
       [EvInstanceIfExists lookup (Ok (Some instance));
        EvRegisterInstanceWithAPIServerELB id r] `sublist_of` evs ∧
       ID instance = id) ∧
  (∀ id err, EvInstanceIfExists id (Err err) ∈ evs →
     out = Normal (false, Some (Errorf "failed to retrieve instance: %+v" err)) ∧
     registrations evs = []) ∧
  creations evs = [] ∧ terminations evs = [] ∧ token_requests evs = [] ∧
  machine mem = m.
Proof.
  unfold Exists. intros Hrun. run_verb.
  all: split_and!;
    [ by eexists _, _
    | intros err' Hout; simplify_eq;
      eexists _, _, _; split_and!; first [reflexivity | done | in_events]
    | intros id' r' Hin; inv_events; try done;
      split_and!;
      first [ done | by eexists
            | eexists _, _; split; first [ordered_events | done] ]
    | intros id' err' Hin; by inv_events
    | done.. ].
Qed.

(** A pending worker node exists, and nothing is registered for it. *)
Lemma Exists_affirms_only_usable_witness :
  let m := cloud.a_machine "m1" "node" "" in
  let i := cloud.an_instance "i-m1" InstanceStatePending in
  let w := cloud.healthy {["i-m1" := i]} {["m1" := cloud.provisioned "i-m1"]} [m] in
  let r := run (Exists cloud.backend cloud.a_cluster) m w in
  r.1.1 = Normal (true, None) ∧
  (∃ instance, EvInstanceIfExists "i-m1" (Ok (Some instance)) ∈ r.2 ∧
     (State instance = InstanceStateRunning ∨ State instance = InstanceStatePending)) ∧
  terminations r.2 = [].
Proof.
  intros m i w r.
  assert (Hout : r.1.1 = Normal (true, None)) by reflexivity.
  destruct (Exists_affirms_only_usable cloud.backend cloud.a_cluster m w
              r.1.1 r.1.2 r.2 (run_eta r)) as (_ & Htrue & _ & _ & _ & Hterm & _).
  destruct (Htrue None Hout) as (s & id & i' & Hhead & Hid & Hin & Hstate).
  assert (Hs : InstanceID (MachineStatus s) = Some "i-m1").
  { remember r.2 as evs eqn:Hevs. vm_compute in Hevs. subst evs.
    simpl in Hhead. by simplify_eq. }
  rewrite Hs in Hid. simplify_eq.
  split_and!; [exact Hout | by exists i' | exact Hterm].
Defined.

(** ** Update, call by call *)

(** X7.  Once the lookup of Update has found the instance, Update asks for
    the security groups to be corrected, with the instance ID of the
    status, the additional security groups of the machine configuration
    and the security groups of the instance found.  If that fails, Update
    returns the error and does not touch the tags.  Otherwise it asks for
    the tags to be corrected, with the additional tags of the machine
    configuration, and returns nil exactly when that succeeds.  These are
    all the calls Update makes.  A failed lookup makes Update return an
    error without any correction. *)
Theorem Update_corrects_drift_in_order {W} (a : Backend W) cluster m w out mem evs :
  run (Update a cluster) m w = (out, mem, evs) →
  (∀ id description, EvInstanceIfExists id (Ok (Some description)) ∈ evs →
     ∃ s r,
       InstanceID (MachineStatus s) = Some id ∧
       let scope := EvNewMachineScope {| Machine_ := m; Cluster_ := cluster |} (Ok s) in
       let lookup := EvInstanceIfExists id (Ok (Some description)) in
       let groups := EvEnsureSecurityGroups m id
                       (AdditionalSecurityGroups (MachineConfig s))
                       (SecurityGroupIDs description) r in
       match r with
       | Err err =>
           evs = [scope; lookup; groups; EvClose s] ∧
           out = Normal (Some (Errorf "failed to apply security groups: %+v" err))
       | Ok _ =>
           ∃ r', evs = [scope; lookup; groups;
                        EvEnsureTags m (Some id) (AdditionalTags (MachineConfig s)) r';
                        EvClose s] ∧
                 out = match r' with
                       | Err err => Normal (Some (Errorf "failed to ensure tags: %+v" err))
                       | Ok _ => Normal None
                       end
       end) ∧
  (∀ id err, EvInstanceIfExists id (Err err) ∈ evs →
     ∃ s, evs = [EvNewMachineScope {| Machine_ := m; Cluster_ := cluster |} (Ok s);
                 EvInstanceIfExists id (Err err); EvClose s] ∧
          out = Normal (Some (Errorf "failed to get instance: %+v" err))) ∧
  machine mem = m.
Proof.
  unfold Update. intros Hrun. run_verb.
  all: split_and!;
    [ intros id' d' Hin; inv_events; try done
    | intros id' err' Hin; inv_events; try done; by eexists
    | done ].
  - eexists _, (Ok _). split; [done |]. simpl. by eexists (Ok _).
  - eexists _, (Ok _). split; [done |]. simpl. by eexists (Err _).
  - eexists _, (Err _). split; [done |]. simpl. done.
Qed.

(** The groups and the tags of a running instance are corrected. *)
Lemma Update_corrects_drift_in_order_witness :
  let m := cloud.a_machine "m1" "node" "" in
  let i := cloud.an_instance "i-m1" InstanceStateRunning in
  let w := cloud.healthy {["i-m1" := i]} {["m1" := cloud.provisioned "i-m1"]} [m] in
  let r := run (Update cloud.backend cloud.a_cluster) m w in
  EvInstanceIfExists "i-m1" (Ok (Some i)) ∈ r.2 ∧
  ∃ s r0, InstanceID (MachineStatus s) = Some "i-m1" ∧
          EvEnsureSecurityGroups m "i-m1" (AdditionalSecurityGroups (MachineConfig s))
            ["sg-1"] r0 ∈ r.2.
Proof.
  intros m i w r.
  assert (Hin : EvInstanceIfExists "i-m1" (Ok (Some i)) ∈ r.2).
  { apply (list_elem_of_lookup_2 _ 1%nat). reflexivity. }
  split; [exact Hin |].
  destruct (Update_corrects_drift_in_order cloud.backend cloud.a_cluster m w
              r.1.1 r.1.2 r.2 (run_eta r)) as (Hfound & _).
  destruct (Hfound "i-m1" i Hin) as (s & r0 & Hid & Hcalls).
  exists s, r0. split; [exact Hid |].
  destruct r0 as [ok | err].
  - destruct Hcalls as (r' & -> & _). in_events.
  - destruct Hcalls as (-> & _). in_events.
Defined.

(** ** When a verb panics *)

(** X8.  The verbs panic in these cases and in no other.  Create panics
    exactly when create-or-get answers neither an instance nor an error.
    Delete panics exactly when the status of its scope has no instance ID.
    Update panics exactly when the status has no instance ID or the lookup
    answers that there is no instance.  Exists never panics. *)
Theorem verbs_panic_exactly_when {W} (a : Backend W) cluster m w :
  (∀ out mem evs,
     run (Create a cluster) m w = (out, mem, evs) →
     out = Panic ↔
     ∃ sc token kubeConfig, EvCreateOrGetMachine sc token kubeConfig (Ok None) ∈ evs) ∧
  (∀ out mem evs,
     run (Delete a cluster) m w = (out, mem, evs) →
     out = Panic ↔
     ∃ s, head evs = Some (EvNewMachineScope {| Machine_ := m; Cluster_ := cluster |} (Ok s)) ∧
          InstanceID (MachineStatus s) = None) ∧
  (∀ out mem evs,
     run (Update a cluster) m w = (out, mem, evs) →
     out = Panic ↔
     ∃ s, head evs = Some (EvNewMachineScope {| Machine_ := m; Cluster_ := cluster |} (Ok s)) ∧
          (InstanceID (MachineStatus s) = None ∨
           ∃ id, EvInstanceIfExists id (Ok None) ∈ evs)) ∧
  (∀ out mem evs,
     run (Exists a cluster) m w = (out, mem, evs) → out ≠ Panic).
Proof.
  split_and!; intros out mem evs Hrun.
  - run_Create.
    all: split; [intros Hout; simplify_eq; try (eexists _, _, _; in_Create_events)
                | intros (sc' & token' & kc' & Hin); inv_Create_events; done ].
  - unfold Delete in *. run_verb.
    all: split; [intros Hout; simplify_eq; try by eexists
                | intros (s' & Hhead & Hid); simpl in *; simplify_eq; congruence ].
  - unfold Update in *. run_verb.
    all: split; [intros Hout; simplify_eq;
                 try (eexists; split; [reflexivity |]; first [by left | right; eexists; in_events])
                | intros (s' & Hhead & [Hid | [id' Hin]]); simpl in *; simplify_eq;
                  first [congruence | by inv_events] ].
  - unfold Exists in *. run_verb. all: done.
Qed.

(** Create-or-get answers nothing at all: Create panics. *)
Lemma verbs_panic_exactly_when_witness :
  let m := cloud.a_machine "m1" "node" "" in
  let w := cloud.healthy ∅ ∅ [m] in
  let a := faulty_cloud None None true in
  let r := run (Create a cloud.a_cluster) m w in
  (∃ sc token kubeConfig, EvCreateOrGetMachine sc token kubeConfig (Ok None) ∈ r.2) ∧
  r.1.1 = Panic.
Proof.
  intros m w a r.
  assert (Hin : ∃ sc token kubeConfig,
            EvCreateOrGetMachine sc token kubeConfig (Ok None) ∈ r.2).
  { eexists _, _, _. apply (list_elem_of_lookup_2 _ 8%nat). reflexivity. }
  split; [exact Hin |].
  destruct (verbs_panic_exactly_when a cloud.a_cluster m w) as (HCreate & _).
  exact (proj2 (HCreate r.1.1 r.1.2 r.2 (run_eta r)) Hin).
Defined.

(** ** No failure is swallowed *)

Lemma failed_check_call ev : failed_check ev → failed_call ev.
Proof. destruct ev; try done; by case_match. Qed.

Lemma failed_further (ev : Event) evs :
  (∃ e, e ∈ evs ∧ failed_call e) → ∃ e, e ∈ ev :: evs ∧ failed_call e.
Proof. intros (e & ? & ?). exists e. split; [by right | done]. Qed.

Lemma failed_app_l (evs1 evs2 : list Event) :
  (∃ e, e ∈ evs1 ∧ failed_call e) → ∃ e, e ∈ evs1 ++ evs2 ∧ failed_call e.
Proof. intros (e & ? & ?). exists e. split; [by apply elem_of_app_l | done]. Qed.

Lemma failed_app_r (evs1 evs2 : list Event) :
  (∃ e, e ∈ evs2 ∧ failed_call e) → ∃ e, e ∈ evs1 ++ evs2 ∧ failed_call e.
Proof. intros (e & ? & ?). exists e. split; [by apply elem_of_app_r | done]. Qed.

(** Finding the failed call among the events of a leaf. *)
Ltac find_failed :=
  lazymatch goal with
  | |- ∃ e, e ∈ ?ev :: ?l ∧ failed_call e =>
      first [ exists ev; split; [apply list_elem_of_here | exact I]
            | apply failed_further; find_failed ]
  | |- ∃ e, e ∈ ?l1 ++ ?l2 ∧ failed_call e =>
      first [ apply failed_app_r; find_failed | apply failed_app_l; find_failed ]
  | |- ∃ e, e ∈ ?l ∧ failed_call e =>
      match goal with
      | Ht : loop_trace _ _ _ l (_, Some _) |- _ =>
          destruct (loop_trace_error _ _ _ _ _ _ Ht) as (_ & ? & ? & ?);
          eexists; split; [eassumption | by apply failed_check_call]
      end
  end.

(** A failed call among the events of the loop of the classifier. *)
Ltac loop_call_failed :=
  match goal with
  | Ht : loop_trace ?c ?cms ?b ?evs ?r, H : ?ev ∈ ?evs, Hf : failed_call ?ev |- _ =>
      let Hc := fresh "Hc" in
      assert (Hc : failed_check ev)
        by (destruct (loop_trace_events c cms b evs r ev Ht H)
              as [(? & ? & ? & ->) | (? & ? & ->)]; exact Hf);
      destruct (loop_trace_failure c cms b evs r ev Ht H Hc) as [[? ?]%last_Some ?];
      destruct ev; simpl in *; try done; repeat case_match; simpl in *;
      simplify_eq; try done
  end.

(** The list of events ends with the given ones. *)
Ltac ends_with :=
  subst; rewrite <- ?app_assoc; simpl;
  repeat first [ reflexivity | apply suffix_cons_r | apply suffix_app_r ].

Ltac failed_is_last :=
  first [ left; by ends_with | right; eexists; by ends_with ].

(** X9.  No verb swallows the failure of a call.  When a call of a verb
    answers an error, the verb returns an error, and the failed call is the
    last call it makes, apart from the closing of its scope.  Conversely a
    verb returns an error only when a call failed; the one exception is
    Create for a machine whose label [set] is neither [node] nor
    [controlplane]. *)
Theorem verbs_report_every_failure {W} (a : Backend W) cluster m w :
  (∀ out mem evs,
     run (Create a cluster) m w = (out, mem, evs) →
     (∀ ev, ev ∈ evs → failed_call ev →
        (∃ err, out = Normal (Some err)) ∧
        ([ev] `suffix_of` evs ∨ ∃ s, [ev; EvClose s] `suffix_of` evs)) ∧
     (∀ err, out = Normal (Some err) →
        (∃ ev, ev ∈ evs ∧ failed_call ev) ∨
        (label "set" m ≠ "node" ∧ label "set" m ≠ "controlplane"))) ∧
  (∀ out mem evs,
     run (Delete a cluster) m w = (out, mem, evs) →
     (∀ ev, ev ∈ evs → failed_call ev →
        (∃ err, out = Normal (Some err)) ∧
        ([ev] `suffix_of` evs ∨ ∃ s, [ev; EvClose s] `suffix_of` evs)) ∧
     (∀ err, out = Normal (Some err) → ∃ ev, ev ∈ evs ∧ failed_call ev)) ∧
  (∀ out mem evs,
     run (Update a cluster) m w = (out, mem, evs) →
     (∀ ev, ev ∈ evs → failed_call ev →
        (∃ err, out = Normal (Some err)) ∧
        ([ev] `suffix_of` evs ∨ ∃ s, [ev; EvClose s] `suffix_of` evs)) ∧
     (∀ err, out = Normal (Some err) → ∃ ev, ev ∈ evs ∧ failed_call ev)) ∧
  (∀ out mem evs,
     run (Exists a cluster) m w = (out, mem, evs) →
     (∀ ev, ev ∈ evs → failed_call ev →
        (∃ b err, out = Normal (b, Some err)) ∧
        ([ev] `suffix_of` evs ∨ ∃ s, [ev; EvClose s] `suffix_of` evs)) ∧
     (∀ b err, out = Normal (b, Some err) → ∃ ev, ev ∈ evs ∧ failed_call ev)).
Proof.
  split_and!; intros out mem evs Hrun.
  - run_Create.
    all: split;
      [ intros ev Hin Hfailed; inv_Create_events; simpl in *; try done;
        try loop_call_failed; (split; [by eexists | failed_is_last])
      | intros err' Hout; simplify_eq;
        first [ by right | left; find_failed ] ].
  - unfold Delete in *. run_verb.
    all: split;
      [ intros ev Hin Hfailed; inv_events; simpl in *; try done;
        (split; [by eexists | failed_is_last])
      | intros err' Hout; simplify_eq; find_failed ].
  - unfold Update in *. run_verb.
    all: split;
      [ intros ev Hin Hfailed; inv_events; simpl in *; try done;
        (split; [by eexists | failed_is_last])
      | intros err' Hout; simplify_eq; find_failed ].
  - unfold Exists in *. run_verb.
    all: split;
      [ intros ev Hin Hfailed; inv_events; simpl in *; try done;
        (split; [by eexists _, _ | failed_is_last])
      | intros b' err' Hout; simplify_eq; find_failed ].
Qed.

(** The lookup fails: Delete reports it, and the lookup was its last call
    before the scope was closed. *)
Lemma verbs_report_every_failure_witness :
  let m := cloud.a_machine "m1" "node" "" in
  let w := cloud.healthy ∅ {["m1" := cloud.provisioned "i-m1"]} [m] in
  let a := faulty_cloud None (Some (Foreign "throttled")) false in
  let r := run (Delete a cloud.a_cluster) m w in
  EvInstanceIfExists "i-m1" (Err (Foreign "throttled")) ∈ r.2 ∧
  (∃ err, r.1.1 = Normal (Some err)) ∧
  ([EvInstanceIfExists "i-m1" (Err (Foreign "throttled"))] `suffix_of` r.2 ∨
   ∃ s, [EvInstanceIfExists "i-m1" (Err (Foreign "throttled")); EvClose s] `suffix_of` r.2).
Proof.
  intros m w a r.
  assert (Hin : EvInstanceIfExists "i-m1" (Err (Foreign "throttled")) ∈ r.2).
  { apply (list_elem_of_lookup_2 _ 1%nat). reflexivity. }
  split; [exact Hin |].
  destruct (verbs_report_every_failure a cloud.a_cluster m w) as (_ & HDelete & _).
  destruct (HDelete r.1.1 r.1.2 r.2 (run_eta r)) as [Hfailed _].
  exact (Hfailed _ Hin I).
Defined.

(** ** What Create leaves on the machine *)

(** X10.  Create writes to the machine only once create-or-get has answered
    an instance: then the annotation [cluster-api-provider-aws] is set to
    [true], the other annotations are kept (a machine without annotations
    gets a map with this one entry), and name, namespace, labels and spec
    are untouched, so the machine is still equal to itself by
    [machinesEqual].  This holds also when Create then fails.  Without such
    an answer the machine is left as it was, and Create does not return
    nil. *)
Theorem Create_marks_machine {W} (a : Backend W) cluster m w out mem evs :
  run (Create a cluster) m w = (out, mem, evs) →
  (∀ sc token kubeConfig i,
     EvCreateOrGetMachine sc token kubeConfig (Ok (Some i)) ∈ evs →
     machine mem
       = set_Annotations
           (Some (<["cluster-api-provider-aws" := "true"]>
                    (default ∅ (Annotations (ObjectMeta_ m))))) m ∧
     machinesEqual m (machine mem) = true) ∧
  ((∀ sc token kubeConfig i,
      EvCreateOrGetMachine sc token kubeConfig (Ok (Some i)) ∉ evs) →
   machine mem = m ∧ out ≠ Normal None).
Proof.
  assert (Hequal : ∀ annotations, machinesEqual m (set_Annotations annotations m) = true).
  { intros annotations. unfold machinesEqual. simpl. by rewrite !bool_decide_eq_true_2. }
  intros Hrun. run_Create.
  all: split;
    [ intros sc' token' kc' i' Hin; inv_Create_events; try done;
      repeat match goal with
      | H : Annotations _ = _ |- _ => rewrite H
      end; simpl; split; first [reflexivity | apply Hequal]
    | intros Hnone;
      first [ by split
            | exfalso; eapply Hnone; in_Create_events ] ].
Qed.

(** A machine with an annotation of its own keeps it. *)
Lemma Create_marks_machine_witness :
  let m := set_Annotations (Some {["owner" := "team-a"]}) (cloud.a_machine "m1" "node" "") in
  let w := cloud.healthy ∅ ∅ [m] in
  let r := run (Create cloud.backend cloud.a_cluster) m w in
  (∃ sc token kubeConfig i, EvCreateOrGetMachine sc token kubeConfig (Ok (Some i)) ∈ r.2) ∧
  Annotations (ObjectMeta_ (machine r.1.2))
    = Some (<["cluster-api-provider-aws" := "true"]> {["owner" := "team-a"]}) ∧
  Labels (ObjectMeta_ (machine r.1.2)) = Labels (ObjectMeta_ m).
Proof.
  intros m w r.
  assert (Hin : ∃ sc token kubeConfig i,
            EvCreateOrGetMachine sc token kubeConfig (Ok (Some i)) ∈ r.2).
  { eexists _, _, _, _. apply (list_elem_of_lookup_2 _ 8%nat). reflexivity. }
  split; [exact Hin |].
  destruct Hin as (sc & token & kc & i & Hin).
  destruct (Create_marks_machine cloud.backend cloud.a_cluster m w
              r.1.1 r.1.2 r.2 (run_eta r)) as [Hmarked _].
  destruct (Hmarked sc token kc i Hin) as [-> _]. split; reflexivity.
Defined.

(** ** Create and the load balancer *)

(** X11.  Create registers with the load balancer only for a machine
    labelled [controlplane], only after create-or-get has answered an
    instance, only the ID of that instance, and once.  When the
    registration fails Create returns an error; when it succeeds Create
    returns nil.  For a machine with another label nothing is registered
    and Create returns nil once create-or-get has answered an instance. *)
Theorem Create_registers_control_plane {W} (a : Backend W) cluster m w out mem evs :
  run (Create a cluster) m w = (out, mem, evs) →
  (∀ id r, EvRegisterInstanceWithAPIServerELB id r ∈ evs →
     label "set" m = "controlplane" ∧ registrations evs = [id] ∧
     (∃ sc token kubeConfig i,
        ID i = id ∧
        [EvCreateOrGetMachine sc token kubeConfig (Ok (Some i));
         EvRegisterInstanceWithAPIServerELB id r] `sublist_of` evs) ∧
     out = match r with
           | Some err =>
               Normal (Some (Errorf "failed to reconcile LB attachment: %+v"
                         (Wrapf err
                            "could not register control plane instance %q with load balancer"
                            [id])))
           | None => Normal None
           end) ∧
  (∀ sc token kubeConfig i,
     EvCreateOrGetMachine sc token kubeConfig (Ok (Some i)) ∈ evs →
     (label "set" m = "controlplane" →
        ∃ r, EvRegisterInstanceWithAPIServerELB (ID i) r ∈ evs) ∧
     (label "set" m ≠ "controlplane" → registrations evs = [] ∧ out = Normal None)) ∧
  ((∀ sc token kubeConfig i,
      EvCreateOrGetMachine sc token kubeConfig (Ok (Some i)) ∉ evs) →
   registrations evs = []).
Proof.
  intros Hrun. run_Create.
  all: unfold label in *; simpl in *.
  all: split_and!;
    [ intros id' r' Hin; inv_Create_events; try done;
      split_and!;
      first [ done | by read_events
            | eexists _, _, _, _; split; first [reflexivity | ordered_events] ]
    | intros sc' token' kc' i' Hin; inv_Create_events; try done;
      split; intros Hlabel; try done;
      first [ eexists; in_Create_events | by read_events ]
    | intros Hnone;
      first [ by read_events
            | exfalso; eapply Hnone; in_Create_events ] ].
Qed.

(** The first control plane machine is registered after it was created. *)
Lemma Create_registers_control_plane_witness :
  let m := cloud.a_machine "cp1" "controlplane" "1.13.0" in
  let w := cloud.healthy ∅ ∅ [m] in
  let r := run (Create cloud.backend cloud.a_cluster) m w in
  EvRegisterInstanceWithAPIServerELB "i-cp1" None ∈ r.2 ∧
  registrations r.2 = ["i-cp1"] ∧ r.1.1 = Normal None.
Proof.
  intros m w r.
  assert (Hin : EvRegisterInstanceWithAPIServerELB "i-cp1" None ∈ r.2).
  { apply (list_elem_of_lookup_2 _ 7%nat). reflexivity. }
  split; [exact Hin |].
  destruct (Create_registers_control_plane cloud.backend cloud.a_cluster m w
              r.1.1 r.1.2 r.2 (run_eta r)) as [Hreg _].
  destruct (Hreg "i-cp1" None Hin) as (_ & Honce & _ & Hout).
  split; [exact Honce | exact Hout].
Defined.

(** ** The classifier asks about the new machine too *)

(** X12.  When Create classifies a machine labelled [controlplane] and no
    existence check answers true or fails, it has constructed a scope and
    asked for existence for every machine of the list whose control plane
    version is not empty, in the order of the list: after the scope of the
    machine itself, each such machine has its scope constructed and the
    existence of that scope checked at once, with the answer false.  The
    machine being created is not left out: if it is in the list with a
    control plane version, Create constructs a second scope for it and asks
    whether it exists itself.  No token is requested on this path. *)
Theorem Create_asks_about_every_control_plane_machine {W} (a : Backend W) cluster m w
    out mem evs sc machineList :
  run (Create a cluster) m w = (out, mem, evs) →
  label "set" m = "controlplane" →
  EvList sc (Ok machineList) ∈ evs →
  (∀ s, EvMachineExists s (Ok true) ∉ evs) →
  (∀ ev, ev ∈ evs → ¬ failed_check ev) →
  constructions evs = m :: getControlPlaneMachines machineList ∧
  token_requests evs = [] ∧
  (m ∈ Items machineList → ControlPlane (Versions (Spec m)) ≠ "" →
   m ∈ tail (constructions evs)) ∧
  (∀ cm, cm ∈ getControlPlaneMachines machineList →
     ∃ s pre post,
       tail evs = pre ++ EvNewMachineScope {| Machine_ := cm; Cluster_ := cluster |} (Ok s)
                      :: EvMachineExists s (Ok false) :: post) ∧
  (m ∈ Items machineList → ControlPlane (Versions (Spec m)) ≠ "" →
   ∃ s pre post,
     tail evs = pre ++ EvNewMachineScope {| Machine_ := m; Cluster_ := cluster |} (Ok s)
                    :: EvMachineExists s (Ok false) :: post).
Proof.
  intros Hrun Hlabel Hin Hnone Hnofail.
  enough (constructions evs = m :: getControlPlaneMachines machineList ∧
          token_requests evs = [] ∧
          ∀ cm, cm ∈ getControlPlaneMachines machineList →
            ∃ s pre post,
              tail evs = pre ++ EvNewMachineScope {| Machine_ := cm; Cluster_ := cluster |}
                                  (Ok s)
                             :: EvMachineExists s (Ok false) :: post)
    as (Hc & Ht & Hchecks).
  { assert (Hself : m ∈ Items machineList → ControlPlane (Versions (Spec m)) ≠ "" →
                    m ∈ getControlPlaneMachines machineList).
    { intros Hm Hversion. rewrite getControlPlaneMachines_filter.
      by apply list_elem_of_filter. }
    split_and!; [done | done | | done |].
    - intros Hm Hversion. rewrite Hc. simpl. by apply Hself.
    - intros Hm Hversion. apply Hchecks. by apply Hself. }
  run_Create.
  all: inv_Create_events; try congruence.
  all: try (exfalso;
            match goal with
            | Ht : loop_trace _ _ _ _ (_, Some _) |- _ =>
                destruct (loop_trace_error _ _ _ _ _ _ Ht) as (_ & ev & ? & ?);
                eapply (Hnofail ev); [in_Create_events | done]
            | Ht : loop_trace _ _ false _ (true, _) |- _ =>
                destruct (proj1 (loop_trace_join _ _ _ _ _ Ht) eq_refl) as [? ?];
                eapply Hnone; in_Create_events
            end).
  all: match goal with
       | Ht : loop_trace _ _ false _ (false, None) |- _ =>
           destruct (loop_trace_exhausted _ _ _ Ht) as [Hc _];
           destruct (loop_trace_silent _ _ _ _ _ Ht) as (_ & Htok & _);
           pose proof (λ cm, loop_trace_exhausted_checks _ _ _ cm Ht) as Hchecks
       end.
  all: split_and!;
    [ unfold constructions in *;
      repeat first
        [ rewrite omap_app
        | rewrite omap_cons_None by reflexivity
        | erewrite omap_cons_Some by reflexivity ];
      by rewrite Hc, ?app_nil_r
    | unfold token_requests in *;
      repeat first
        [ rewrite omap_app
        | rewrite omap_cons_None by reflexivity
        | erewrite omap_cons_Some by reflexivity ];
      by rewrite Htok
    | intros cm Hcm; destruct (Hchecks cm Hcm) as (s & pre & post & ->);
      simpl; eexists s, (_ :: _ :: pre), _;
      rewrite <- ?app_assoc; simpl; reflexivity ].
Qed.

(** The first control plane machine of a cluster is asked about itself. *)
Lemma Create_asks_about_every_control_plane_machine_witness :
  let worker := cloud.a_machine "m1" "node" "" in
  let cp1 := cloud.a_machine "cp1" "controlplane" "1.13.0" in
  let w := cloud.healthy ∅ ∅ [worker; cp1] in
  let r := run (Create cloud.backend cloud.a_cluster) cp1 w in
  let s := {| ScopeName := "cp1";
              MachineConfig := {| AdditionalSecurityGroups := []; AdditionalTags := ∅ |};
              MachineStatus := {| InstanceID := None; InstanceState_ := None |} |} in
  label "set" cp1 = "controlplane" ∧
  EvList s (Ok {| Items := [worker; cp1] |}) ∈ r.2 ∧
  constructions r.2 = [cp1; cp1] ∧
  cp1 ∈ tail (constructions r.2) ∧
  ∃ s' pre post,
    tail r.2 = pre ++ EvNewMachineScope {| Machine_ := cp1; Cluster_ := cloud.a_cluster |}
                        (Ok s')
                   :: EvMachineExists s' (Ok false) :: post.
Proof.
  intros worker cp1 w r s.
  assert (Hlabel : label "set" cp1 = "controlplane") by reflexivity.
  assert (Hin : EvList s (Ok {| Items := [worker; cp1] |}) ∈ r.2).
  { apply (list_elem_of_lookup_2 _ 2%nat). reflexivity. }
  assert (Hnone : ∀ s', EvMachineExists s' (Ok true) ∉ r.2).
  { intros s'. remember r.2 as evs eqn:Hevs. vm_compute in Hevs. subst evs.
    intros Hs. by inv_events. }
  assert (Hnofail : ∀ ev, ev ∈ r.2 → ¬ failed_check ev).
  { intros ev. remember r.2 as evs eqn:Hevs. vm_compute in Hevs. subst evs.
    intros Hev Hfailed. by inv_events. }
  assert (Hlisted : cp1 ∈ Items {| Items := [worker; cp1] |}).
  { apply (list_elem_of_lookup_2 _ 1%nat). reflexivity. }
  assert (Hversion : ControlPlane (Versions (Spec cp1)) ≠ "") by discriminate.
  destruct (Create_asks_about_every_control_plane_machine cloud.backend
              cloud.a_cluster cp1 w r.1.1 r.1.2 r.2 s {| Items := [worker; cp1] |}
              (run_eta r) Hlabel Hin Hnone Hnofail) as (Hc & _ & Hself & _ & Hasked).
  split_and!; [exact Hlabel | exact Hin | exact Hc | |].
  - exact (Hself Hlisted Hversion).
  - exact (Hasked Hlisted Hversion).
Defined.

(** ** The causes of the errors of Create *)

(** A failed call of the loop of the classifier makes the loop answer its
    error, wrapped. *)
Lemma loop_trace_cause cluster cms b evs r ev cause :
  loop_trace cluster cms b evs r → ev ∈ evs → error_of ev = Some cause →
  (∃ format args, r = (false, Some (Wrapf cause format args))) ∧
  match ev with
  | EvNewMachineScope params _ => ∃ cm, params = {| Machine_ := cm; Cluster_ := cluster |}
  | EvMachineExists _ _ => True
  | _ => False
  end.
Proof.
  intros Htrace Hin Hcause.
  destruct (loop_trace_events _ _ _ _ _ _ Htrace Hin)
    as [(cm & res & _ & ->) | (s & res & ->)].
  all: destruct res as [? | err]; simpl in *; simplify_eq.
  all: destruct (loop_trace_failure _ _ _ _ _ _ Htrace Hin I) as [_ ->].
  all: split; [by eexists _, _ |]; by eauto.
Qed.

(** X13.  What [errors.Cause] finds in the error Create returns after a
    failed call.  Create wraps the failures of the machine list, of the
    classifier (the scopes and existence checks of the control plane
    machines), of the steps to the token and of the kubeconfig: the cause
    of the returned error is the cause of the error the call answered.  It
    flattens the failures of its own scope, of the control plane endpoint,
    of create-or-get and of the registration into a new error that is its
    own cause. *)
Theorem Create_error_causes {W} (a : Backend W) cluster m w out mem evs ev cause :
  run (Create a cluster) m w = (out, mem, evs) →
  ev ∈ evs → error_of ev = Some cause →
  ∃ err,
    out = Normal (Some err) ∧
    match ev with
    | EvGetIP _ _ | EvCreateOrGetMachine _ _ _ _
    | EvRegisterInstanceWithAPIServerELB _ _ => Cause err = err
    | EvNewMachineScope _ _ =>
        (head evs = Some ev → Cause err = err) ∧
        (head evs ≠ Some ev → Cause err = Cause cause)
    | _ => Cause err = Cause cause
    end.
Proof.
  intros Hrun. revert ev cause. run_Create.
  all: intros ev cause Hin Hcause.
  all: repeat match goal with
       | H : _ ∈ _ :: _ |- _ => apply elem_of_cons in H; destruct H as [-> | H]
       | H : _ ∈ _ ++ _ |- _ => apply elem_of_app in H; destruct H as [H | H]
       | H : _ ∈ [] |- _ => by apply elem_of_nil in H
       end.
  all: simpl in Hcause; simplify_eq.
  all: try match goal with
       | Ht : loop_trace _ _ _ ?evs _, H : ?e ∈ ?evs, Hc : error_of ?e = Some _ |- _ =>
           destruct (loop_trace_cause _ _ _ _ _ _ _ Ht H Hc)
             as [(? & ? & ?) ?]; simplify_eq;
           destruct e; try done
       end.
  all: eexists; split; [reflexivity |]; simpl; try done.
  all: split; [intros ?; simplify_eq | done].
Qed.

(** The issuer is down: the cause of what Create returns is the error of
    the issuer. *)
Lemma Create_error_causes_witness :
  let m := cloud.a_machine "m1" "node" "" in
  let w := {| cloud.instances := ∅; cloud.store := ∅; cloud.machines := [m];
              cloud.endpoint := Some "https://10.0.0.1:6443";
              cloud.networkReady := true; cloud.elbHealthy := true;
              cloud.issuerHealthy := false |} in
  let r := run (Create cloud.backend cloud.a_cluster) m w in
  let ev := EvNewBootstrap "https://10.0.0.1:6443" 600000000000
              (Err (Foreign "token issuer unavailable")) in
  ev ∈ r.2 ∧ error_of ev = Some (Foreign "token issuer unavailable") ∧
  ∃ err, r.1.1 = Normal (Some err) ∧ Cause err = Foreign "token issuer unavailable".
Proof.
  intros m w r ev.
  assert (Hin : ev ∈ r.2).
  { apply (list_elem_of_lookup_2 _ 6%nat). reflexivity. }
  assert (Hcause : error_of ev = Some (Foreign "token issuer unavailable")) by reflexivity.
  split_and!; [exact Hin | exact Hcause |].
  destruct (Create_error_causes cloud.backend cloud.a_cluster m w r.1.1 r.1.2 r.2 ev _
              (run_eta r) Hin Hcause) as (err & Hout & Hc).
  exists err. split; [exact Hout | exact Hc].
Defined.

(** ** The order of the calls of Create *)

(** X14.  Create calls create-or-get at most once, and only after it has
    resolved the control plane endpoint, listed the machines and fetched
    a kubeconfig, in this order.  The call is made on the scope of the
    machine as it was constructed and with a kubeconfig fetched after the
    list.  Create never looks up or terminates an instance. *)
Theorem Create_provisions_once_in_order {W} (a : Backend W) cluster m w out mem evs :
  run (Create a cluster) m w = (out, mem, evs) →
  (length (creations evs) ≤ 1)%nat ∧ lookups evs = [] ∧ terminations evs = [] ∧
  ∀ sc token kubeConfig r,
    EvCreateOrGetMachine sc token kubeConfig r ∈ evs →
    head evs = Some (EvNewMachineScope {| Machine_ := m; Cluster_ := cluster |} (Ok sc)) ∧
    ∃ controlPlaneURL machineList,
      [EvGetIP cluster (Ok controlPlaneURL); EvList sc (Ok machineList);
       EvGetKubeConfig cluster (Ok kubeConfig);
       EvCreateOrGetMachine sc token kubeConfig r] `sublist_of` evs.
Proof.
  intros Hrun. run_Create.
  all: split_and!;
    [ read_events; lia
    | by read_events
    | by read_events
    | intros sc' token' kc' r' Hin; inv_Create_events; try done;
      split; first [ reflexivity | eexists _, _; ordered_events ] ].
Qed.

(** A worker node: the endpoint, the list, the kubeconfig, the instance. *)
Lemma Create_provisions_once_in_order_witness :
  let m := cloud.a_machine "m1" "node" "" in
  let w := cloud.healthy ∅ ∅ [m] in
  let r := run (Create cloud.backend cloud.a_cluster) m w in
  length (creations r.2) = 1%nat ∧
  ∃ sc token r0,
    EvCreateOrGetMachine sc token "kubeconfig" r0 ∈ r.2 ∧
    ∃ controlPlaneURL machineList,
      [EvGetIP cloud.a_cluster (Ok controlPlaneURL); EvList sc (Ok machineList);
       EvGetKubeConfig cloud.a_cluster (Ok "kubeconfig");
       EvCreateOrGetMachine sc token "kubeconfig" r0] `sublist_of` r.2.
Proof.
  intros m w r. split; [reflexivity |].
  eexists _, _, _.
  assert (Hin : EvCreateOrGetMachine
            {| ScopeName := "m1";
               MachineConfig := {| AdditionalSecurityGroups := []; AdditionalTags := ∅ |};
               MachineStatus := {| InstanceID := None; InstanceState_ := None |} |}
            "abcdef.0123456789abcdef" "kubeconfig"
            (Ok (Some {| ID := "i-m1"; State := InstanceStatePending;
                         SecurityGroupIDs := [] |})) ∈ r.2).
  { apply (list_elem_of_lookup_2 _ 8%nat). reflexivity. }
  split; [exact Hin |].
  destruct (Create_provisions_once_in_order cloud.backend cloud.a_cluster m w
              r.1.1 r.1.2 r.2 (run_eta r)) as (_ & _ & _ & Horder).
  exact (proj2 (Horder _ _ _ _ Hin)).
Defined.
